(** * StripeTestPB: the checkout backend and the storefront cart

    A shallow embedding of [server/server.js] (the Express backend: webhook
    verification and dispatch, checkout-session creation) and of
    [client/src/App.js] (the cart transitions and the two-view checkout flow),
    with the properties of the specification proved over it.

    Conventions.
    - Prices and quantities are JavaScript numbers holding integers (minor
      currency units, item counts); they are modelled as [Z], and so are
      the numbers inside JSON values, which print in decimal.  The display
      step [(totalCents / 100).toFixed(2)] is floating-point formatting and
      is left out: the cart total is modelled in minor units.
    - The Stripe SDK is outside the repository.  Its two entry points used by
      the backend, [stripe.webhooks.constructEvent] and
      [stripe.checkout.sessions.create], are section variables; each either
      returns a value or throws an [Error].
    - What crosses the backend's boundary is not typed: the [items] field of
      a checkout request and the event decoded from a webhook payload are
      arbitrary JSON values, and a property read on them may throw.  What
      the client receives is typed by the backend that wrote it.
    - A handler is a computation that emits a trace of observable effects
      (console output, calls to the provider, writes on [res]) and may leave
      early with [return]. *)

From Stdlib Require Import String List ZArith Lia Bool DecimalString.
Import ListNotations.

Local Open Scope string_scope.
Local Open Scope Z_scope.
Local Open Scope list_scope.

(** String concatenation, as [+] on strings and template literals. *)
Local Infix "+++" := String.append (at level 60, right associativity) : string_scope.

(* ===================================================================== *)
(** * Data exchanged between the client and the backend *)
(* ===================================================================== *)

(** A catalogue entry, as [GET /api/products] returns it. *)
Module Product.
Record t : Type := mk {
  id : string;
  name : string;
  price : Z;
  imageUrl : string
}.
End Product.

(** One element of the [items] array posted to
    [/api/create-checkout-session]. *)
Module Item.
Record t : Type := mk {
  id : string;
  name : string;
  price : Z;
  quantity : Z
}.
End Item.

(* ===================================================================== *)
(** * server/server.js *)
(* ===================================================================== *)

Module Server.

(** A thrown JavaScript [Error]; the handlers only read [err.message]. *)
Record Error : Type := mkError { message : string }.

(** A call that may throw: [inl] is the returned value, [inr] the exception. *)
Definition Throws (A : Type) : Type := (A + Error)%type.

(** [process.env]: a variable that is not set reads as [undefined]. *)
Record Env : Type := mkEnv {
  STRIPE_WEBHOOK_SECRET : option string;
  FRONTEND_URL : option string
}.

(** [`${x}`] inside a template literal: [undefined] prints as "undefined". *)
Definition interpolate (x : option string) : string :=
  match x with
  | Some s => s
  | None => "undefined"
  end.

(** ** JSON values *)

(** What [JSON.parse] produces, plus [undefined] for a property that is not
    there.  The request bodies and the decoded webhook events reach the
    handlers as such values: nothing in this file checks their shape. *)
#[warnings="-register-all"] Inductive Value : Type :=
| undefined
| null
| boolean (b : bool)
| number (n : Z)
| str (s : string)
| array (elements : list Value)
| object (properties : list (string * Value)).

(** [!!v] *)
Definition truthy (v : Value) : bool :=
  match v with
  | undefined | null => false
  | boolean b => b
  | number n => negb (n =? 0)
  | str s => negb (s =? "")%string
  | array _ | object _ => true
  end.

(** The own property [key] of a parsed object, [undefined] when absent. *)
Fixpoint lookup (key : string) (properties : list (string * Value)) : Value :=
  match properties with
  | [] => undefined
  | (k, v) :: rest => if (k =? key)%string then v else lookup key rest
  end.

(** The [TypeError] of a property read on [undefined] or [null]. *)
Definition cannot_read (what key : string) : Error :=
  mkError ("Cannot read properties of " +++ what +++ " (reading '" +++ key +++ "')").

(** [v.key], for the property names the handlers read on values of unknown
    shape ([type], [data], [object], [id], [name], [price], [quantity]): no
    prototype defines them, so only a parsed object can hold one, and the
    read throws on [undefined] and [null].  ([length] and [map] are read
    through [length_is_zero] and [items_map] below.) *)
Definition get (v : Value) (key : string) : Throws Value :=
  match v with
  | undefined => inr (cannot_read "undefined" key)
  | null => inr (cannot_read "null" key)
  | object properties => inl (lookup key properties)
  | boolean _ | number _ | str _ | array _ => inl undefined
  end.

(** [`${n}`] for an integer-valued number. *)
Definition number_to_string (n : Z) : string :=
  NilZero.string_of_int (Z.to_int n).

(** Whether a parsed object has an own property [key]. *)
Definition has_own (key : string) (properties : list (string * Value)) : bool :=
  existsb (fun kv => (fst kv =? key)%string) properties.

(** [`${v}`]: the conversion of a value to a string.  An array joins its
    elements with commas, [null] and [undefined] elements printing as the
    empty string.  A parsed object prints as "[object Object]" unless it has
    an own [toString] property, which cannot be a function: the conversion
    then throws. *)
Fixpoint to_string (v : Value) : Throws string :=
  match v with
  | undefined => inl "undefined"
  | null => inl "null"
  | boolean b => inl (if b then "true" else "false")
  | number n => inl (number_to_string n)
  | str s => inl s
  | array elements =>
      (fix join (l : list Value) : Throws string :=
         match l with
         | [] => inl ""
         | x :: rest =>
             match
               match x with
               | undefined | null => inl ""
               | _ => to_string x
               end
             with
             | inr e => inr e
             | inl s =>
                 match rest with
                 | [] => inl s
                 | _ :: _ =>
                     match join rest with
                     | inr e => inr e
                     | inl t => inl (s +++ "," +++ t)
                     end
                 end
             end
         end) elements
  | object properties =>
      if has_own "toString" properties
      then inr (mkError "Cannot convert object to primitive value")
      else inl "[object Object]"
  end.

(** [v === s] for a string literal [s]. *)
Definition strict_equals (v : Value) (s : string) : bool :=
  match v with
  | str s' => (s' =? s)%string
  | _ => false
  end.

(** ** Provider-side data *)

(** The event [constructEvent] returns: the decoded payload, any JSON
    value. *)
Module Event.
Definition t : Type := Value.
End Event.

(** The argument built for [stripe.checkout.sessions.create]; the fields
    copied from the request are passed on as they came. *)
Module ProductData.
Record t : Type := mk { name : Value }.
End ProductData.

Module PriceData.
Record t : Type := mk {
  currency : string;
  product_data : ProductData.t;
  unit_amount : Value
}.
End PriceData.

Module LineItem.
Record t : Type := mk { price_data : PriceData.t; quantity : Value }.
End LineItem.

Module SessionCreateParams.
Record t : Type := mk {
  payment_method_types : list string;
  line_items : list LineItem.t;
  mode : string;
  success_url : string;
  cancel_url : string
}.
End SessionCreateParams.

(** The created checkout session; the handler reads [session.id]. *)
Module Session.
Record t : Type := mk { id : string }.
End Session.

(** ** Requests *)

(** [const { items } = req.body]: whatever the parsed body holds under
    [items], [undefined] when the field is absent. *)
Definition Items : Type := Value.

Definition items_undefined : Items := undefined.

Definition items_null : Items := null.

(** An item as [JSON.stringify] writes it and [express.json()] reads it
    back. *)
Definition encode (item : Item.t) : Value :=
  object [("id", str (Item.id item));
          ("name", str (Item.name item));
          ("price", number (Item.price item));
          ("quantity", number (Item.quantity item))].

(** The array of items the client posts. *)
Definition items_array (l : list Item.t) : Items := array (map encode l).

Record CheckoutRequest : Type := mkCheckoutRequest { items : Items }.

(** [POST /webhook]: the raw body kept by [express.raw] and the
    [stripe-signature] header ([undefined] when the header is absent). *)
Record WebhookRequest : Type := mkWebhookRequest {
  body : string;
  stripe_signature : option string
}.

(** ** Responses *)

(** What the handlers write on [res]. *)
Inductive Payload : Type :=
| send (text : string)                    (* res.send(text) *)
| json_received (received : bool)         (* res.json({ received }) *)
| json_error (error : string)             (* res.json({ error }) *)
| json_id (id : string)                   (* res.json({ id }) *)
| json_products (l : list Product.t).     (* res.json(products) *)

Record Response : Type := mkResponse { status : Z; payload : Payload }.

(** ** Effects *)

(** The arms of the [switch (event.type)] of the webhook handler. *)
Inductive Branch : Type :=
| checkout_session_completed
| payment_intent_succeeded
| default_branch.

Inductive LogArg : Type :=
| text (s : string)
| thrown (e : Error)
| shown (v : Value).

Inductive Effect : Type :=
| console_log (args : list LogArg)
| console_error (args : list LogArg)
| constructEvent_call (payload : string) (header secret : option string)
| sessions_create_call (params : SessionCreateParams.t)
| enter (b : Branch)                      (* control reaches a switch arm *)
| respond (r : Response)                  (* res.status(..).send/json(..) *)
| uncaught (e : Error).                   (* an exception leaves the handler *)

(** ** The handler monad: a trace, and [None] once the handler has ended *)

Definition Handler (A : Type) : Type := (list Effect * option A)%type.

Definition pure {A : Type} (a : A) : Handler A := ([], Some a).

Definition bind {A B : Type} (m : Handler A) (k : A -> Handler B) : Handler B :=
  match m with
  | (t, Some a) => let (t', r) := k a in (t ++ t', r)
  | (t, None) => (t, None)
  end.

Definition emit (e : Effect) : Handler unit := ([e], Some tt).

(** The [return] statement: nothing after it runs. *)
Definition return_ {A : Type} : Handler A := ([], None).

(** An expression evaluated outside any [try]: when it throws, the async
    handler ends there and its promise rejects; nothing after it runs. *)
Definition evaluate {A : Type} (r : Throws A) : Handler A :=
  match r with
  | inl a => pure a
  | inr e => ([uncaught e], None)
  end.

Declare Scope handler_scope.
Delimit Scope handler_scope with handler.
Notation "x <- m ;; k" := (bind m (fun x => k))
  (at level 61, m at next level, right associativity) : handler_scope.
Notation "m ;; k" := (bind m (fun _ => k))
  (at level 61, right associativity) : handler_scope.
Local Open Scope handler_scope.

Definition trace {A : Type} (m : Handler A) : list Effect := fst m.

(** The responses written, the switch arms entered and the provider calls
    made along a trace. *)
Definition responses (t : list Effect) : list Response :=
  flat_map (fun e => match e with respond r => [r] | _ => [] end) t.

Definition entered (t : list Effect) : list Branch :=
  flat_map (fun e => match e with enter b => [b] | _ => [] end) t.

Definition provider_calls (t : list Effect) : list SessionCreateParams.t :=
  flat_map (fun e => match e with sessions_create_call p => [p] | _ => [] end) t.

(** [event.data.object.id] can be read: neither [event.data] nor
    [event.data.object] is [null] or [undefined]. *)
Definition carries_object (event : Value) : Prop :=
  exists data session id,
    get event "data" = inl data /\
    get data "object" = inl session /\
    get session "id" = inl id.

Section Backend.

Variable env : Env.

(** [stripe.webhooks.constructEvent(payload, header, secret)] *)
Variable constructEvent :
  string -> option string -> option string -> Throws Event.t.

(** [stripe.checkout.sessions.create(params)] *)
Variable sessions_create : SessionCreateParams.t -> Throws Session.t.

(** ** [app.post('/webhook', ...)] *)

(** The [switch (event.type)] statement and what follows the [try]: the
    reads of [event.data.object] and of its [id] are not guarded. *)
Definition dispatch (event : Event.t) : Handler unit :=
  type <- evaluate (get event "type") ;;
  if strict_equals type "checkout.session.completed" then
    emit (enter checkout_session_completed) ;;
    data <- evaluate (get event "data") ;;
    session <- evaluate (get data "object") ;;
    id <- evaluate (get session "id") ;;
    emit (console_log [text "✅ Checkout Session Completed:"; shown id])
  else if strict_equals type "payment_intent.succeeded" then
    emit (enter payment_intent_succeeded) ;;
    data <- evaluate (get event "data") ;;
    paymentIntent <- evaluate (get data "object") ;;
    id <- evaluate (get paymentIntent "id") ;;
    emit (console_log [text "✅ Payment Intent Succeeded:"; shown id])
  else
    emit (enter default_branch) ;;
    label <- evaluate (to_string type) ;;
    emit (console_log [text ("Unhandled event type " +++ label)]).

(** The [catch (err)] block of the webhook handler. *)
Definition onVerifyError {A : Type} (err : Error) : Handler A :=
  emit (console_error
          [text ("⚠️  Webhook Signature Verification Error: " +++ message err)]) ;;
  emit (respond (mkResponse 400 (send ("Webhook Error: " +++ message err)))) ;;
  return_.

Definition handleWebhook (req : WebhookRequest) : Handler unit :=
  let sig := stripe_signature req in
  emit (console_log [text "Webhook received! Verifying signature..."]) ;;
  emit (constructEvent_call (body req) sig (STRIPE_WEBHOOK_SECRET env)) ;;
  event <- match constructEvent (body req) sig (STRIPE_WEBHOOK_SECRET env) with
           | inr err => onVerifyError err
           | inl event =>
               (* `Webhook verified. Event type: ${event.type}`, inside the try *)
               match get event "type" with
               | inr err => onVerifyError err
               | inl type =>
                   match to_string type with
                   | inr err => onVerifyError err
                   | inl label =>
                       emit (console_log
                               [text ("Webhook verified. Event type: " +++ label)]) ;;
                       pure event
                   end
               end
           end ;;
  dispatch event ;;
  emit (respond (mkResponse 200 (json_received true))).

(** ** [app.get('/api/products', ...)] *)

Definition products : list Product.t :=
  [ Product.mk "product_1" "Premium Coffee Beans" 1500 "/images/coffee.jpg";
    Product.mk "product_2" "Handcrafted Mug" 2500 "/images/mug.jpg" ].

Definition getProducts : Handler unit :=
  emit (respond (mkResponse 200 (json_products products))).

(** ** [app.post('/api/create-checkout-session', ...)] *)

(** [items.length === 0] on a truthy value: the length of an array or of a
    string, the own [length] property of a parsed object, and [undefined]
    on a boolean or a number. *)
Definition length_is_zero (i : Items) : bool :=
  match i with
  | array elements => (length elements =? 0)%nat
  | str s => (String.length s =? 0)%nat
  | object properties =>
      match lookup "length" properties with
      | number n => n =? 0
      | _ => false
      end
  | undefined | null | boolean _ | number _ => false
  end.

(** [!items || items.length === 0] *)
Definition no_items (i : Items) : bool :=
  if truthy i then length_is_zero i else true.

(** [l.map(f)] with a callback that may throw: the first exception ends
    the loop. *)
Fixpoint map_throws {A B : Type} (f : A -> Throws B) (l : list A)
  : Throws (list B) :=
  match l with
  | [] => inl []
  | x :: rest =>
      match f x with
      | inr e => inr e
      | inl y =>
          match map_throws f rest with
          | inr e => inr e
          | inl ys => inl (y :: ys)
          end
      end
  end.

(** [items.map(f)]: only an array has a [map] method.  On any other truthy
    value [items.map] is not a function and the call throws; on [undefined]
    or [null] the property read itself throws (the guard above returns
    before that can happen). *)
Definition items_map {B : Type} (f : Value -> Throws B) (i : Items)
  : Throws (list B) :=
  match i with
  | array elements => map_throws f elements
  | undefined => inr (cannot_read "undefined" "map")
  | null => inr (cannot_read "null" "map")
  | boolean _ | number _ | str _ | object _ =>
      inr (mkError "items.map is not a function")
  end.

(** The callback of [items.map(item => ({ price_data: ..., quantity: ... }))]:
    it reads [item.name], [item.price] and [item.quantity] in that order. *)
Definition toLineItem (item : Value) : Throws LineItem.t :=
  match get item "name" with
  | inr e => inr e
  | inl name =>
      match get item "price" with
      | inr e => inr e
      | inl price =>
          match get item "quantity" with
          | inr e => inr e
          | inl quantity =>
              inl (LineItem.mk
                     (PriceData.mk "aud" (ProductData.mk name) price)
                     quantity)
          end
      end
  end.

(** What the callback yields on an item the client posted. *)
Definition lineItem (item : Item.t) : LineItem.t :=
  LineItem.mk
    (PriceData.mk "aud" (ProductData.mk (str (Item.name item)))
       (number (Item.price item)))
    (number (Item.quantity item)).

(** The argument object of [stripe.checkout.sessions.create]. *)
Definition sessionParams (lineItems : list LineItem.t) : SessionCreateParams.t :=
  let successUrl :=
    interpolate (FRONTEND_URL env) +++ "/success?session_id={CHECKOUT_SESSION_ID}" in
  let cancelUrl := interpolate (FRONTEND_URL env) +++ "/cancel" in
  SessionCreateParams.mk ["card"] lineItems "payment" successUrl cancelUrl.

(** The [catch (error)] block of the handler. *)
Definition onCreateError (error : Error) : Handler unit :=
  emit (console_error [text "Error creating checkout session:"; thrown error]) ;;
  emit (respond (mkResponse 500 (json_error (message error)))).

Definition createCheckoutSession (req : CheckoutRequest) : Handler unit :=
  let items := items req in
  (if no_items items then
     emit (respond (mkResponse 400 (json_error "No items provided"))) ;;
     return_
   else pure tt) ;;
  match items_map toLineItem items with
  | inr error => onCreateError error
  | inl lineItems =>
      let params := sessionParams lineItems in
      emit (sessions_create_call params) ;;
      match sessions_create params with
      | inr error => onCreateError error
      | inl session =>
          emit (respond (mkResponse 200 (json_id (Session.id session))))
      end
  end.

End Backend.

End Server.

(* ===================================================================== *)
(** * client/src/App.js *)
(* ===================================================================== *)

Module Client.

(** A thrown or rejected JavaScript [Error]. *)
Record Error : Type := mkError { message : string }.

Definition Throws (A : Type) : Type := (A + Error)%type.

(** An element of the cart: the product's own fields plus [quantity]. *)
Module CartItem.
Record t : Type := mk { product : Product.t; quantity : Z }.

Definition id (item : t) : string := Product.id (product item).
Definition name (item : t) : string := Product.name (product item).
Definition price (item : t) : Z := Product.price (product item).

(** [{ ...item, quantity: q }] *)
Definition with_quantity (item : t) (q : Z) : t := mk (product item) q.
End CartItem.

Definition Cart : Type := list CartItem.t.

(** The three [useState] cells of [App]. *)
Record AppState : Type := mkAppState {
  products : list Product.t;
  cart : Cart;
  showCheckout : bool
}.

(** [useState([])], [useState([])], [useState(false)] *)
Definition initialState : AppState := mkAppState [] [] false.

(** [setCart(prevCart => f(prevCart))] *)
Definition setCart (f : Cart -> Cart) (st : AppState) : AppState :=
  mkAppState (products st) (f (cart st)) (showCheckout st).

Definition setShowCheckout (b : bool) (st : AppState) : AppState :=
  mkAppState (products st) (cart st) b.

(** ** Cart management *)

Definition addToCart (productToAdd : Product.t) : AppState -> AppState :=
  setCart (fun prevCart =>
    let existingItem :=
      find (fun item => (CartItem.id item =? Product.id productToAdd)%string) prevCart in
    match existingItem with
    | Some _ =>
        map (fun item =>
               if (CartItem.id item =? Product.id productToAdd)%string
               then CartItem.with_quantity item (CartItem.quantity item + 1)
               else item)
            prevCart
    | None => prevCart ++ [CartItem.mk productToAdd 1]
    end).

Definition removeFromCart (productId : string) : AppState -> AppState :=
  setCart (fun prevCart =>
    filter (fun item => negb (CartItem.id item =? productId)%string) prevCart).

Definition updateCartQuantity (productId : string) (newQuantity : Z)
  : AppState -> AppState :=
  setCart (fun prevCart =>
    if newQuantity <=? 0 then
      filter (fun item => negb (CartItem.id item =? productId)%string) prevCart
    else
      map (fun item =>
             if (CartItem.id item =? productId)%string
             then CartItem.with_quantity item newQuantity
             else item)
          prevCart).

(** [const totalCents = cart.reduce((total, item) =>
       total + (item.price * item.quantity), 0)] of [getTotalCartPrice]. *)
Definition totalCents (st : AppState) : Z :=
  fold_left
    (fun total item => total + CartItem.price item * CartItem.quantity item)
    (cart st) 0.

(** ** Checkout flow *)

(** The object returned by [response.json()]; the handler reads [error] from
    an error body and [id] from a session body. *)
Record JsonBody : Type := mkJsonBody {
  error : option string;
  id : option string
}.

(** The [Response] of [fetch]: the fields the handler reads. *)
Record FetchResponse : Type := mkFetchResponse {
  ok : bool;
  status : Z;
  json : Throws JsonBody
}.

Inductive LogArg : Type :=
| text (s : string)
| thrown (e : Error).

Inductive Effect : Type :=
| alert (msg : string)
| console_error (args : list LogArg)
| fetch_post (url : string) (items : list Item.t)
| redirectToCheckout (sessionId : option string).

(** [`${x}`] for an environment variable that may be unset. *)
Definition interpolate (x : option string) : string :=
  match x with
  | Some s => s
  | None => "undefined"
  end.

(** [`${n}`] for an integer-valued number. *)
Definition number_to_string (n : Z) : string :=
  NilZero.string_of_int (Z.to_int n).

(** [a || b] on a possibly missing string: [undefined] and the empty string
    are falsy. *)
Definition or_else (a : option string) (b : string) : string :=
  match a with
  | Some s => if (s =? "")%string then b else s
  | None => b
  end.

Definition handleProceedToCheckout (st : AppState) : AppState * list Effect :=
  if (length (cart st) =? 0)%nat then
    (st, [alert "Your cart is empty! Please add some products."])
  else
    (setShowCheckout true st, []).

Definition handleBackToShopping (st : AppState) : AppState * list Effect :=
  (setShowCheckout false st, []).

Section Checkout.

(** [process.env.REACT_APP_BACKEND_URL] *)
Variable REACT_APP_BACKEND_URL : option string.

(** [fetch(url, { method: 'POST', ..., body: JSON.stringify({ items }) })]:
    resolves to a response or rejects. *)
Variable fetch : string -> list Item.t -> Throws FetchResponse.

(** [await stripePromise]: [true] for a loaded Stripe object, [false] for
    [null]; [loadStripe] may also reject. *)
Variable stripePromise : Throws bool.

(** [item => ({ id: item.id, name: item.name, price: item.price,
                quantity: item.quantity })] *)
Definition toItem (item : CartItem.t) : Item.t :=
  Item.mk (CartItem.id item) (CartItem.name item) (CartItem.price item)
          (CartItem.quantity item).

(** The [try] block: the effects performed before it completes or throws. *)
Definition checkoutAttempt (st : AppState) : list Effect * Throws unit :=
  let url := interpolate REACT_APP_BACKEND_URL +++ "/api/create-checkout-session" in
  let items := map toItem (cart st) in
  match fetch url items with
  | inr e => ([fetch_post url items], inr e)
  | inl response =>
      if negb (ok response) then
        match json response with
        | inr e => ([fetch_post url items], inr e)
        | inl errorData =>
            ([fetch_post url items],
             inr (mkError
                    (or_else (error errorData)
                       ("HTTP error! status: " +++ number_to_string (status response)))))
        end
      else
        match json response with
        | inr e => ([fetch_post url items], inr e)
        | inl session =>
            match stripePromise with
            | inr e => ([fetch_post url items], inr e)
            | inl stripe =>
                if stripe then
                  ([fetch_post url items; redirectToCheckout (id session)], inl tt)
                else
                  ([fetch_post url items;
                    console_error [text "Stripe.js has not loaded correctly."];
                    alert "Payment gateway not ready. Please try again."], inl tt)
            end
        end
  end.

Definition handleStripeCheckoutRedirect (st : AppState) : AppState * list Effect :=
  match checkoutAttempt st with
  | (effects, inl _) => (st, effects)
  | (effects, inr error) =>
      (st, effects ++
           [console_error [text "Error initiating Stripe Checkout:"; thrown error];
            alert ("Could not initiate checkout: " +++ message error
                   +++ ". Please try again.")])
  end.

End Checkout.

(** ** The two views *)

Inductive View : Type := Browsing | Reviewing.

(** [showCheckout] selects the checkout view, [!showCheckout] the product
    listing. *)
Definition view (st : AppState) : View :=
  if showCheckout st then Reviewing else Browsing.

Definition alerts (t : list Effect) : list string :=
  flat_map (fun e => match e with alert m => [m] | _ => [] end) t.

Definition redirects (t : list Effect) : list (option string) :=
  flat_map (fun e => match e with redirectToCheckout s => [s] | _ => [] end) t.

(** The sum of a list of amounts, written by recursion on the list. *)
Fixpoint sum (l : list Z) : Z :=
  match l with
  | [] => 0
  | x :: l' => x + sum l'
  end.

(** [productId] occurs among the ids of the cart. *)
Definition present (productId : string) (c : Cart) : Prop :=
  exists item, In item c /\ CartItem.id item = productId.

(** ** Sequences of cart operations *)

Inductive CartOp : Type :=
| add (product : Product.t)
| remove (productId : string)
| setQuantity (productId : string) (n : Z).

Definition step (st : AppState) (op : CartOp) : AppState :=
  match op with
  | add p => addToCart p st
  | remove i => removeFromCart i st
  | setQuantity i n => updateCartQuantity i n st
  end.

Definition run (ops : list CartOp) (st : AppState) : AppState :=
  fold_left step ops st.

(** The products passed to [addToCart] along a sequence of operations. *)
Definition added (ops : list CartOp) : list Product.t :=
  flat_map (fun op => match op with add p => [p] | _ => [] end) ops.

(** The invariant of the items: a quantity of at least one, and a product
    taken from [source]. *)
Definition well_formed (source : list Product.t) (item : CartItem.t) : Prop :=
  1 <= CartItem.quantity item /\ In (CartItem.product item) source.

(** ** The header's item count *)

(** [cart.reduce((total, item) => total + item.quantity, 0)] *)
Definition cartCount (st : AppState) : Z :=
  fold_left (fun total item => total + CartItem.quantity item) (cart st) 0.

(** ** Loading the catalogue on mount *)

Definition setProducts (data : list Product.t) (st : AppState) : AppState :=
  mkAppState data (cart st) (showCheckout st).

(** The [Response] of the catalogue request: the fields [fetchProducts]
    reads, with [json()] typed as the array of products it expects. *)
Module ProductsResponse.
Record t : Type := mk {
  ok : bool;
  status : Z;
  json : Throws (list Product.t)
}.
End ProductsResponse.

Section FetchProducts.

Variable REACT_APP_BACKEND_URL : option string.

(** [fetch(url)]: resolves to a response or rejects. *)
Variable fetch : string -> Throws ProductsResponse.t.

(** The [catch (error)] block of [fetchProducts]. *)
Definition onFetchProductsError (st : AppState) (error : Error)
  : AppState * list Effect :=
  (st, [console_error [text "Error fetching products:"; thrown error]]).

Definition fetchProducts (st : AppState) : AppState * list Effect :=
  match fetch (interpolate REACT_APP_BACKEND_URL +++ "/api/products") with
  | inr error => onFetchProductsError st error
  | inl response =>
      if negb (ProductsResponse.ok response) then
        onFetchProductsError st
          (mkError ("HTTP error! status: "
                    +++ number_to_string (ProductsResponse.status response)))
      else
        match ProductsResponse.json response with
        | inr error => onFetchProductsError st error
        | inl data => (setProducts data st, [])
        end
  end.

End FetchProducts.

(** ** The rendered buttons *)

(** A click on one of the buttons of the page. *)
Inductive Click : Type :=
| click_add (product : Product.t)         (* Add to Cart *)
| click_proceed                           (* Proceed to Checkout *)
| click_back                              (* Back to Shopping *)
| click_minus (item : CartItem.t)         (* - *)
| click_plus (item : CartItem.t)          (* + *)
| click_remove (item : CartItem.t)        (* Remove *)
| click_pay.                              (* Pay with Stripe *)

(** The buttons the JSX of [App] renders and leaves enabled, in document
    order: the header's navigation, then the product list or the checkout
    view.  The Proceed button is rendered [disabled] on an empty cart. *)
Definition buttons (st : AppState) : list Click :=
  (if negb (showCheckout st) then
     if (length (cart st) =? 0)%nat then [] else [click_proceed]
   else [])
  ++ (if showCheckout st then [click_back] else [])
  ++ (if negb (showCheckout st) then
        if (0 <? length (products st))%nat
        then map click_add (products st)
        else []
      else
        if (length (cart st) =? 0)%nat then []
        else
          flat_map
            (fun item => [click_minus item; click_plus item; click_remove item])
            (cart st)
          ++ [click_pay]).

Section Page.

Variable REACT_APP_BACKEND_URL : option string.
Variable fetch : string -> list Item.t -> Throws FetchResponse.
Variable stripePromise : Throws bool.

(** The [onClick] handler attached to each button. *)
Definition onClick (c : Click) (st : AppState) : AppState * list Effect :=
  match c with
  | click_add product => (addToCart product st, [])
  | click_proceed => handleProceedToCheckout st
  | click_back => handleBackToShopping st
  | click_minus item =>
      (updateCartQuantity (CartItem.id item) (CartItem.quantity item - 1) st, [])
  | click_plus item =>
      (updateCartQuantity (CartItem.id item) (CartItem.quantity item + 1) st, [])
  | click_remove item => (removeFromCart (CartItem.id item) st, [])
  | click_pay =>
      handleStripeCheckoutRedirect REACT_APP_BACKEND_URL fetch stripePromise st
  end.

(** The states a user can bring the page to: it starts with the loaded
    catalogue, an empty cart and the product list, and moves by clicks on
    enabled buttons.  (Before the catalogue arrives no button is enabled.) *)
Inductive reachable (catalogue : list Product.t) : AppState -> Prop :=
| reachable_start : reachable catalogue (mkAppState catalogue [] false)
| reachable_click (st : AppState) (c : Click) :
    reachable catalogue st ->
    In c (buttons st) ->
    reachable catalogue (fst (onClick c st)).

End Page.

(** The requests posted to the backend along a trace. *)
Definition posts (t : list Effect) : list (string * list Item.t) :=
  flat_map (fun e => match e with fetch_post u i => [(u, i)] | _ => [] end) t.

End Client.

(* ===================================================================== *)
(** * Sample data and stand-ins for the provider *)
(* ===================================================================== *)

Module Samples.

Definition coffee : Product.t :=
  Product.mk "product_1" "Premium Coffee Beans" 1500 "/images/coffee.jpg".

Definition mug : Product.t :=
  Product.mk "product_2" "Handcrafted Mug" 2500 "/images/mug.jpg".

Definition env : Server.Env :=
  Server.mkEnv (Some "whsec_test") (Some "http://localhost:3000").

(** The event the provider sends for a type: its [data.object] carries an
    id. *)
Definition event_of (type : string) : Server.Event.t :=
  Server.object
    [("id", Server.str "evt_test_1");
     ("type", Server.str type);
     ("data",
      Server.object
        [("object", Server.object [("id", Server.str "obj_test_1")])])].

(** A stand-in for the provider's signing scheme: the header must be the
    secret followed by the payload, and the payload is the event type. *)
Definition constructEvent (payload : string) (header secret : option string)
  : Server.Throws Server.Event.t :=
  match header, secret with
  | Some h, Some k =>
      if (h =? k +++ payload)%string then inl (event_of payload)
      else
        inr (Server.mkError
               "No signatures found matching the expected signature for payload.")
  | _, _ =>
      inr (Server.mkError "No stripe-signature header value was provided.")
  end.

(** A signed payload that decodes to an event of a recognised type with no
    [data] field. *)
Definition event_without_data : Server.Event.t :=
  Server.object [("type", Server.str "checkout.session.completed")].

(** An SDK call that accepts the signature and decodes [event]. *)
Definition constructEvent_decoding (event : Server.Event.t)
    (payload : string) (header secret : option string)
  : Server.Throws Server.Event.t :=
  inl event.

Definition signed (type : string) : Server.WebhookRequest :=
  Server.mkWebhookRequest type (Some ("whsec_test" +++ type)).

(** The same payload signed with another secret. *)
Definition forged (type : string) : Server.WebhookRequest :=
  Server.mkWebhookRequest type (Some ("whsec_other" +++ type)).

(** A provider that accepts every session. *)
Definition sessions_create_ok (params : Server.SessionCreateParams.t)
  : Server.Throws Server.Session.t :=
  inl (Server.Session.mk "cs_test_a1B2c3").

(** A provider that refuses every session. *)
Definition sessions_create_fails (params : Server.SessionCreateParams.t)
  : Server.Throws Server.Session.t :=
  inr (Server.mkError "Invalid API Key provided: sk_test_xx").

Definition coffee_twice : list Item.t :=
  [Item.mk "product_1" "Premium Coffee Beans" 1500 2].

(** [fetch] answered by the backend above: [response.ok] is a 2xx status and
    [response.json()] reads the body the handler wrote. *)
Definition fetch_from
    (create : Server.SessionCreateParams.t -> Server.Throws Server.Session.t)
    (url : string) (items : list Item.t) : Client.Throws Client.FetchResponse :=
  let t :=
    Server.trace
      (Server.createCheckoutSession env create
         (Server.mkCheckoutRequest (Server.items_array items))) in
  match Server.responses t with
  | r :: _ =>
      inl (Client.mkFetchResponse
             ((200 <=? Server.status r) && (Server.status r <=? 299))
             (Server.status r)
             (match Server.payload r with
              | Server.json_error e => inl (Client.mkJsonBody (Some e) None)
              | Server.json_id i => inl (Client.mkJsonBody None (Some i))
              | _ => inr (Client.mkError "Unexpected end of JSON input")
              end))
  | [] => inr (Client.mkError "Failed to fetch")
  end.

(** A fetch that never reaches the backend. *)
Definition fetch_offline (url : string) (items : list Item.t)
  : Client.Throws Client.FetchResponse :=
  inr (Client.mkError "Failed to fetch").

Definition reviewing_coffee : Client.AppState :=
  Client.mkAppState [coffee; mug] [Client.CartItem.mk coffee 2] true.

Definition browsing_coffee : Client.AppState :=
  Client.mkAppState [coffee; mug] [Client.CartItem.mk coffee 2] false.

Definition browsing_empty : Client.AppState :=
  Client.mkAppState [coffee; mug] [] false.

End Samples.

(* ===================================================================== *)
(** * client/src/components/CheckoutForm.js *)
(* ===================================================================== *)

Module CheckoutForm.

(** The two [useState] cells of the form. *)
Record State : Type := mkState {
  message : option string;
  isLoading : bool
}.

(** [useState(null)], [useState(false)] *)
Definition initialState : State := mkState None false.

Definition setMessage (m : option string) (st : State) : State :=
  mkState m (isLoading st).

Definition setIsLoading (b : bool) (st : State) : State :=
  mkState (message st) b.

(** The [error] object of [stripe.confirmPayment]; [message] may be absent. *)
Module StripeError.
Record t : Type := mk { type : string; message : option string }.
End StripeError.

(** What [await stripe.confirmPayment(...)] does. *)
Inductive Confirmation : Type :=
| confirm_error (error : StripeError.t)   (* resolves with { error } *)
| confirm_without_error                   (* resolves with no error field *)
| confirm_rejects (e : Client.Error)      (* the promise rejects *)
| confirm_navigates.                      (* the browser leaves for return_url *)

(** How a call of the async handler ends. *)
Inductive Completion : Type :=
| returned
| rejected (e : Client.Error)
| pending.

Inductive Effect : Type :=
| preventDefault
| fetch_post (url : string) (items : Client.Cart)
| confirmPayment_call (clientSecret : option string) (return_url : string).

(** The [Response] of the payment-intent request: the handler reads only the
    [clientSecret] field of [response.json()]. *)
Record IntentResponse : Type := mkIntentResponse {
  json : Client.Throws (option string)
}.

Section Form.

(** The [cartItems] prop. *)
Variable cartItems : Client.Cart.

(** [useStripe()] and [useElements()]: [false] while they are [null]. *)
Variable stripe : bool.
Variable elements : bool.

Variable REACT_APP_BACKEND_URL : option string.
Variable REACT_APP_FRONTEND_URL : option string.

Variable fetch : string -> Client.Cart -> Client.Throws IntentResponse.

(** [stripe.confirmPayment({ elements, clientSecret,
      confirmParams: { return_url } })] *)
Variable confirmPayment : option string -> string -> Confirmation.

Definition handleSubmit (st : State) : State * list Effect * Completion :=
  if negb stripe || negb elements then
    (st, [preventDefault], returned)
  else
    let st1 := setIsLoading true st in
    let url :=
      Client.interpolate REACT_APP_BACKEND_URL +++ "/api/create-payment-intent" in
    match fetch url cartItems with
    | inr e => (st1, [preventDefault; fetch_post url cartItems], rejected e)
    | inl response =>
        match json response with
        | inr e => (st1, [preventDefault; fetch_post url cartItems], rejected e)
        | inl clientSecret =>
            let return_url :=
              Client.interpolate REACT_APP_FRONTEND_URL +++ "/success" in
            let effects :=
              [preventDefault; fetch_post url cartItems;
               confirmPayment_call clientSecret return_url] in
            match confirmPayment clientSecret return_url with
            | confirm_rejects e => (st1, effects, rejected e)
            | confirm_navigates => (st1, effects, pending)
            | confirm_without_error =>
                (st1, effects,
                 rejected
                   (Client.mkError
                      "Cannot read properties of undefined (reading 'type')"))
            | confirm_error error =>
                let st2 :=
                  if (StripeError.type error =? "card_error")%string
                     || (StripeError.type error =? "validation_error")%string
                  then setMessage (StripeError.message error) st1
                  else setMessage (Some "An unexpected error occurred.") st1 in
                (setIsLoading false st2, effects, returned)
            end
        end
    end.

(** [disabled={isLoading || !stripe || !elements}] on the submit button. *)
Definition submitDisabled (st : State) : bool :=
  isLoading st || negb stripe || negb elements.

End Form.

End CheckoutForm.

(* ===================================================================== *)
(** * The client's requests answered by the backend *)
(* ===================================================================== *)

Module Wire.

(** [response.ok]: the status is in the range 200-299. *)
Definition ok_status (status : Z) : bool :=
  (200 <=? status) && (status <=? 299).

(** [response.json()] on the body a handler wrote, read at the fields the
    client looks at; a body sent as text is not JSON. *)
Definition parse (p : Server.Payload) : Client.Throws Client.JsonBody :=
  match p with
  | Server.json_error e => inl (Client.mkJsonBody (Some e) None)
  | Server.json_id i => inl (Client.mkJsonBody None (Some i))
  | Server.json_received _ => inl (Client.mkJsonBody None None)
  | Server.json_products _ => inl (Client.mkJsonBody None None)
  | Server.send _ => inr (Client.mkError "Unexpected token in JSON")
  end.

Section Backend.

Variable env : Server.Env.
Variable sessions_create :
  Server.SessionCreateParams.t -> Server.Throws Server.Session.t.

(** The origin the backend listens on. *)
Variable backend_url : string.

(** [fetch(url, { method: 'POST', body: JSON.stringify({ items }) })] when
    the network delivers: a request for the checkout route is parsed by
    [express.json()], handled by [createCheckoutSession], and the response
    it wrote comes back; any other address is not reached. *)
Definition post (url : string) (items : list Item.t)
  : Client.Throws Client.FetchResponse :=
  if (url =? backend_url +++ "/api/create-checkout-session")%string then
    match
      Server.responses
        (Server.trace
           (Server.createCheckoutSession env sessions_create
              (Server.mkCheckoutRequest (Server.items_array items))))
    with
    | r :: _ =>
        inl (Client.mkFetchResponse (ok_status (Server.status r))
               (Server.status r) (parse (Server.payload r)))
    | [] => inr (Client.mkError "Failed to fetch")
    end
  else inr (Client.mkError "Failed to fetch").

End Backend.

End Wire.

(* ===================================================================== *)
(** * More sample data *)
(* ===================================================================== *)

Module Fixtures.

Definition backend : string := "http://localhost:5000".

Definition catalogue : list Product.t := [Samples.coffee; Samples.mug].

Definition checkout_request : Server.CheckoutRequest :=
  Server.mkCheckoutRequest (Server.items_array Samples.coffee_twice).

(** A body whose [items] array holds [null]. *)
Definition malformed_request : Server.CheckoutRequest :=
  Server.mkCheckoutRequest (Server.array [Server.null]).

(** A cart holding the same id twice is not reachable; one with distinct
    ids: *)
Definition coffee_and_mug : Client.AppState :=
  Client.mkAppState catalogue
    [Client.CartItem.mk Samples.coffee 2; Client.CartItem.mk Samples.mug 1]
    true.

(** A backend that answers every post with 500 and an error body. *)
Definition refused : Client.FetchResponse :=
  Client.mkFetchResponse false 500
    (inl (Client.mkJsonBody (Some "Your card was declined.") None)).

Definition fetch_refused (url : string) (items : list Item.t)
  : Client.Throws Client.FetchResponse :=
  inl refused.

(** A backend that answers every post with a session. *)
Definition accepted : Client.FetchResponse :=
  Client.mkFetchResponse true 200
    (inl (Client.mkJsonBody None (Some "cs_test_a1B2c3"))).

Definition fetch_accepted (url : string) (items : list Item.t)
  : Client.Throws Client.FetchResponse :=
  inl accepted.

(** A catalogue request that never reaches the backend. *)
Definition fetch_products_offline (url : string)
  : Client.Throws Client.ProductsResponse.t :=
  inr (Client.mkError "Failed to fetch").

(** The payment-intent request answered by a page that is not JSON. *)
Definition fetch_intent_not_found (url : string) (items : Client.Cart)
  : Client.Throws CheckoutForm.IntentResponse :=
  inl (CheckoutForm.mkIntentResponse
         (inr (Client.mkError "Unexpected token < in JSON at position 0"))).

(** The payment-intent request answered with a client secret. *)
Definition fetch_intent_ok (url : string) (items : Client.Cart)
  : Client.Throws CheckoutForm.IntentResponse :=
  inl (CheckoutForm.mkIntentResponse (inl (Some "pi_1_secret_2"))).

Definition declined : CheckoutForm.StripeError.t :=
  CheckoutForm.StripeError.mk "card_error" (Some "Your card was declined.").

Definition confirm_declined (clientSecret : option string) (return_url : string)
  : CheckoutForm.Confirmation :=
  CheckoutForm.confirm_error declined.

End Fixtures.

(* ===================================================================== *)
(** * Properties of the backend *)
(* ===================================================================== *)

Section BackendProperties.

Import Server.

Variable env : Env.
Variable constructEvent :
  string -> option string -> option string -> Throws Event.t.
Variable sessions_create : SessionCreateParams.t -> Throws Session.t.

Local Abbreviation handleWebhook := (Server.handleWebhook env constructEvent).
Local Abbreviation createCheckoutSession :=
  (Server.createCheckoutSession env sessions_create).

(** The trace of the webhook handler when verification throws. *)
Lemma handleWebhook_trace_rejected (req : WebhookRequest) (err : Error) :
  constructEvent (body req) (stripe_signature req) (STRIPE_WEBHOOK_SECRET env)
    = inr err ->
  handleWebhook req =
    ([console_log [text "Webhook received! Verifying signature..."];
      constructEvent_call (body req) (stripe_signature req)
        (STRIPE_WEBHOOK_SECRET env);
      console_error
        [text ("⚠️  Webhook Signature Verification Error: " +++ message err)];
      respond (mkResponse 400 (send ("Webhook Error: " +++ message err)))],
     None).
Proof.
  intros Hthrow. unfold Server.handleWebhook. rewrite Hthrow. reflexivity.
Qed.

(** The webhook handler when verification returns [event] and the [try]
    block completes: the switch runs next, and the acknowledgement is
    written only if the switch runs to its end. *)
Lemma handleWebhook_trace_verified
    (req : WebhookRequest) (event type : Value) (label : string) :
  constructEvent (body req) (stripe_signature req) (STRIPE_WEBHOOK_SECRET env)
    = inl event ->
  get event "type" = inl type ->
  to_string type = inl label ->
  handleWebhook req =
    ([console_log [text "Webhook received! Verifying signature..."];
      constructEvent_call (body req) (stripe_signature req)
        (STRIPE_WEBHOOK_SECRET env);
      console_log [text ("Webhook verified. Event type: " +++ label)]]
     ++ trace (dispatch event)
     ++ match snd (dispatch event) with
        | Some _ => [respond (mkResponse 200 (json_received true))]
        | None => []
        end,
     snd (dispatch event)).
Proof.
  intros Hok Htype Hlabel. unfold Server.handleWebhook.
  rewrite Hok, Htype, Hlabel. unfold bind, emit, pure, trace.
  destruct (dispatch event) as [t [[]|]]; cbn [fst snd app];
    [|rewrite app_nil_r]; reflexivity.
Qed.

(** [v === s] holds for the string [s] and for nothing else. *)
Lemma strict_equals_false (v : Value) (s : string) :
  v <> str s -> strict_equals v s = false.
Proof.
  destruct v as [| | | |s'| |]; try reflexivity.
  intros Hne. cbn. apply String.eqb_neq. intros ->. apply Hne. reflexivity.
Qed.

(** The arm of a completed checkout session, when the event carries its
    object. *)
Lemma dispatch_checkout_session_completed (event data session id : Value) :
  get event "type" = inl (str "checkout.session.completed") ->
  get event "data" = inl data ->
  get data "object" = inl session ->
  get session "id" = inl id ->
  dispatch event =
    ([enter checkout_session_completed;
      console_log [text "✅ Checkout Session Completed:"; shown id]],
     Some tt).
Proof.
  intros Htype Hdata Hobject Hid. unfold dispatch.
  rewrite Htype. cbn. rewrite Hdata. cbn. rewrite Hobject. cbn.
  rewrite Hid. reflexivity.
Qed.

(** The arm of a succeeded payment intent, when the event carries its
    object. *)
Lemma dispatch_payment_intent_succeeded (event data paymentIntent id : Value) :
  get event "type" = inl (str "payment_intent.succeeded") ->
  get event "data" = inl data ->
  get data "object" = inl paymentIntent ->
  get paymentIntent "id" = inl id ->
  dispatch event =
    ([enter payment_intent_succeeded;
      console_log [text "✅ Payment Intent Succeeded:"; shown id]],
     Some tt).
Proof.
  intros Htype Hdata Hobject Hid. unfold dispatch.
  rewrite Htype. cbn. rewrite Hdata. cbn. rewrite Hobject. cbn.
  rewrite Hid. reflexivity.
Qed.

(** The default arm: any other type is logged and nothing else is read. *)
Lemma dispatch_default (event type : Value) (label : string) :
  get event "type" = inl type ->
  type <> str "checkout.session.completed" ->
  type <> str "payment_intent.succeeded" ->
  to_string type = inl label ->
  dispatch event =
    ([enter default_branch;
      console_log [text ("Unhandled event type " +++ label)]],
     Some tt).
Proof.
  intros Htype H1 H2 Hlabel. unfold dispatch. rewrite Htype.
  cbn [evaluate bind pure app].
  rewrite (strict_equals_false _ _ H1), (strict_equals_false _ _ H2).
  cbn. rewrite Hlabel. reflexivity.
Qed.

Lemma responses_app (t1 t2 : list Effect) :
  responses (t1 ++ t2) = responses t1 ++ responses t2.
Proof. apply flat_map_app. Qed.

Lemma entered_app (t1 t2 : list Effect) :
  entered (t1 ++ t2) = entered t1 ++ entered t2.
Proof. apply flat_map_app. Qed.

(** The switch writes nothing on [res], whichever way it ends. *)
Lemma dispatch_responses (event : Event.t) :
  responses (trace (dispatch event)) = [].
Proof.
  unfold dispatch.
  destruct (get event "type") as [type|e]; [|reflexivity]. cbn.
  destruct (strict_equals type "checkout.session.completed").
  - destruct (get event "data") as [data|e]; [|reflexivity]. cbn.
    destruct (get data "object") as [session|e]; [|reflexivity]. cbn.
    destruct (get session "id") as [id|e]; reflexivity.
  - destruct (strict_equals type "payment_intent.succeeded").
    + destruct (get event "data") as [data|e]; [|reflexivity]. cbn.
      destruct (get data "object") as [session|e]; [|reflexivity]. cbn.
      destruct (get session "id") as [id|e]; reflexivity.
    + cbn. destruct (to_string type) as [label|e]; reflexivity.
Qed.

(** C1.  When signature verification fails ([constructEvent] throws, whatever
    the reason: bad signature, stale timestamp, altered body, other secret),
    the webhook handler writes exactly one response, with status 400 and the
    text ["Webhook Error: " + err.message], and control reaches no arm of the
    switch on the event type. *)
Theorem webhook_rejects_failed_verification
    (req : WebhookRequest) (err : Error) :
  constructEvent (body req) (stripe_signature req) (STRIPE_WEBHOOK_SECRET env)
    = inr err ->
  responses (trace (handleWebhook req))
    = [mkResponse 400 (send ("Webhook Error: " +++ message err))] /\
  entered (trace (handleWebhook req)) = [].
Proof.
  intros Hthrow.
  rewrite (handleWebhook_trace_rejected req err Hthrow).
  split; reflexivity.
Qed.

(** C2, as amended.  When signature verification succeeds with an event
    that is not [null], the handler's whole trace is as follows.  For the
    type ["checkout.session.completed"], and likewise for
    ["payment_intent.succeeded"], provided [event.data.object] can be read
    (neither [event.data] nor [event.data.object] is [null] or missing):
    the two verification log lines, the entry into that type's arm, the log
    line of the arm with the object's [id], and the response 200
    [{received: true}].  For any other type that prints as a string: the two
    verification log lines, the entry into the default arm, the line
    ["Unhandled event type ..."], and the response 200 [{received: true}].
    In each case one arm is entered, once, and one response is written. *)
Theorem webhook_acknowledges_verified_event
    (req : WebhookRequest) (event type : Value) :
  constructEvent (body req) (stripe_signature req) (STRIPE_WEBHOOK_SECRET env)
    = inl event ->
  get event "type" = inl type ->
  (forall data session id,
     type = str "checkout.session.completed" ->
     get event "data" = inl data ->
     get data "object" = inl session ->
     get session "id" = inl id ->
     trace (handleWebhook req) =
       [console_log [text "Webhook received! Verifying signature..."];
        constructEvent_call (body req) (stripe_signature req)
          (STRIPE_WEBHOOK_SECRET env);
        console_log
          [text "Webhook verified. Event type: checkout.session.completed"];
        enter checkout_session_completed;
        console_log [text "✅ Checkout Session Completed:"; shown id];
        respond (mkResponse 200 (json_received true))]) /\
  (forall data paymentIntent id,
     type = str "payment_intent.succeeded" ->
     get event "data" = inl data ->
     get data "object" = inl paymentIntent ->
     get paymentIntent "id" = inl id ->
     trace (handleWebhook req) =
       [console_log [text "Webhook received! Verifying signature..."];
        constructEvent_call (body req) (stripe_signature req)
          (STRIPE_WEBHOOK_SECRET env);
        console_log
          [text "Webhook verified. Event type: payment_intent.succeeded"];
        enter payment_intent_succeeded;
        console_log [text "✅ Payment Intent Succeeded:"; shown id];
        respond (mkResponse 200 (json_received true))]) /\
  (forall label,
     type <> str "checkout.session.completed" ->
     type <> str "payment_intent.succeeded" ->
     to_string type = inl label ->
     trace (handleWebhook req) =
       [console_log [text "Webhook received! Verifying signature..."];
        constructEvent_call (body req) (stripe_signature req)
          (STRIPE_WEBHOOK_SECRET env);
        console_log [text ("Webhook verified. Event type: " +++ label)];
        enter default_branch;
        console_log [text ("Unhandled event type " +++ label)];
        respond (mkResponse 200 (json_received true))]).
Proof.
  intros Hok Htype. split; [|split].
  - intros data session id -> Hdata Hobject Hid.
    rewrite (handleWebhook_trace_verified req event _ _ Hok Htype eq_refl).
    rewrite (dispatch_checkout_session_completed event data session id
               Htype Hdata Hobject Hid).
    reflexivity.
  - intros data paymentIntent id -> Hdata Hobject Hid.
    rewrite (handleWebhook_trace_verified req event _ _ Hok Htype eq_refl).
    rewrite (dispatch_payment_intent_succeeded event data paymentIntent id
               Htype Hdata Hobject Hid).
    reflexivity.
  - intros label H1 H2 Hlabel.
    rewrite (handleWebhook_trace_verified req event type label Hok Htype Hlabel).
    rewrite (dispatch_default event type label Htype H1 H2 Hlabel).
    reflexivity.
Qed.

(** The callback on an item the client posted. *)
Lemma toLineItem_encode (item : Item.t) :
  toLineItem (encode item) = inl (lineItem item).
Proof. reflexivity. Qed.

(** [items.map] over an array of posted items does not throw. *)
Lemma items_map_items_array (l : list Item.t) :
  items_map toLineItem (items_array l) = inl (map lineItem l).
Proof.
  unfold items_array, items_map.
  induction l as [|item l IH]; [reflexivity|].
  cbn [map map_throws]. rewrite toLineItem_encode, IH. reflexivity.
Qed.

(** The handler's trace on a non-empty array of items. *)
Lemma createCheckoutSession_nonempty (l : list Item.t) :
  l <> [] ->
  createCheckoutSession (mkCheckoutRequest (items_array l)) =
    let params := sessionParams env (map lineItem l) in
    match sessions_create params with
    | inl session =>
        ([sessions_create_call params;
          respond (mkResponse 200 (json_id (Session.id session)))], Some tt)
    | inr error =>
        ([sessions_create_call params;
          console_error [text "Error creating checkout session:"; thrown error];
          respond (mkResponse 500 (json_error (message error)))], Some tt)
    end.
Proof.
  intros Hne. unfold Server.createCheckoutSession. cbn [items].
  rewrite items_map_items_array.
  destruct l as [|item l]; [contradiction|].
  cbn. destruct (sessions_create _); reflexivity.
Qed.

(** C3.  When [items] is missing from the request body, is [null], or is the
    empty array, the handler writes exactly one response, status 400 with
    body [{error: 'No items provided'}], and makes no call to
    [stripe.checkout.sessions.create]. *)
Theorem createSession_rejects_missing_items (req : CheckoutRequest) :
  items req = items_undefined \/ items req = items_null \/
  items req = items_array [] ->
  responses (trace (createCheckoutSession req))
    = [mkResponse 400 (json_error "No items provided")] /\
  provider_calls (trace (createCheckoutSession req)) = [].
Proof.
  intros Hitems. unfold Server.createCheckoutSession.
  destruct Hitems as [-> | [-> | ->]]; split; reflexivity.
Qed.

(** C4.  For a non-empty array of items on which the provider call
    succeeds with [session], the handler calls the provider exactly once,
    with a request holding one line item per input item, in order, each
    carrying that item's name, its price as unit amount and its quantity,
    in the fixed currency, with the success and cancel URLs built from the
    configured base URL; it then writes exactly one response, status 200
    with body [{id: session.id}]. *)
Theorem createSession_forwards_items_and_returns_id
    (l : list Item.t) (session : Session.t) :
  l <> [] ->
  (forall params,
     In params
        (provider_calls
           (trace (createCheckoutSession (mkCheckoutRequest (items_array l))))) ->
     sessions_create params = inl session) ->
  exists params,
    provider_calls
      (trace (createCheckoutSession (mkCheckoutRequest (items_array l))))
      = [params] /\
    map (fun li =>
           (ProductData.name (PriceData.product_data (LineItem.price_data li)),
            PriceData.unit_amount (LineItem.price_data li),
            LineItem.quantity li))
        (SessionCreateParams.line_items params)
      = map (fun item =>
               (str (Item.name item),
                number (Item.price item),
                number (Item.quantity item))) l /\
    Forall (fun li => PriceData.currency (LineItem.price_data li) = "aud")
           (SessionCreateParams.line_items params) /\
    SessionCreateParams.success_url params
      = (interpolate (FRONTEND_URL env)
         +++ "/success?session_id={CHECKOUT_SESSION_ID}") /\
    SessionCreateParams.cancel_url params
      = (interpolate (FRONTEND_URL env) +++ "/cancel") /\
    responses
      (trace (createCheckoutSession (mkCheckoutRequest (items_array l))))
      = [mkResponse 200 (json_id (Session.id session))].
Proof.
  intros Hne Hok.
  rewrite (createCheckoutSession_nonempty l Hne) in *. cbv zeta in *.
  set (params := sessionParams env (map lineItem l)) in *.
  assert (Hcall : sessions_create params = inl session).
  { apply Hok. destruct (sessions_create params); left; reflexivity. }
  rewrite Hcall. exists params. repeat split.
  - unfold params; cbn. rewrite map_map. reflexivity.
  - unfold params; cbn. apply Forall_map, Forall_forall. reflexivity.
Qed.

(** C5.  For a non-empty array of items on which the provider call throws
    [err], the handler's effects are exactly: the one call to the provider, a
    line on the error console, and one response, status 500 with body
    [{error: err.message}].  The handler performs nothing else; the backend
    keeps no store, so no state is written. *)
Theorem createSession_reports_upstream_failure
    (l : list Item.t) (err : Error) :
  l <> [] ->
  (forall params,
     In params
        (provider_calls
           (trace (createCheckoutSession (mkCheckoutRequest (items_array l))))) ->
     sessions_create params = inr err) ->
  exists params,
    trace (createCheckoutSession (mkCheckoutRequest (items_array l)))
      = [sessions_create_call params;
         console_error [text "Error creating checkout session:"; thrown err];
         respond (mkResponse 500 (json_error (message err)))] /\
    responses
      (trace (createCheckoutSession (mkCheckoutRequest (items_array l))))
      = [mkResponse 500 (json_error (message err))].
Proof.
  intros Hne Hfail.
  rewrite (createCheckoutSession_nonempty l Hne) in *. cbv zeta in *.
  set (params := sessionParams env (map lineItem l)) in *.
  assert (Hcall : sessions_create params = inr err).
  { apply Hfail. destruct (sessions_create params); left; reflexivity. }
  rewrite Hcall. exists params. split; reflexivity.
Qed.

End BackendProperties.

(* ===================================================================== *)
(** * Properties of the cart *)
(* ===================================================================== *)

Section CartProperties.

Import Client.

Local Abbreviation ids := (map CartItem.id).

(** [{ ...item, quantity: q }] keeps the id. *)
Lemma id_with_quantity (item : CartItem.t) (q : Z) :
  CartItem.id (CartItem.with_quantity item q) = CartItem.id item.
Proof. reflexivity. Qed.

(** Rewriting quantities in place leaves the sequence of ids as it was. *)
Lemma ids_map_quantity (productId : string) (q : CartItem.t -> Z) (c : Cart) :
  ids (map (fun item =>
              if (CartItem.id item =? productId)%string
              then CartItem.with_quantity item (q item)
              else item) c)
  = ids c.
Proof.
  induction c as [|item c IH]; cbn; [reflexivity|].
  rewrite IH. destruct (CartItem.id item =? productId)%string; reflexivity.
Qed.

Lemma in_ids_filter (f : CartItem.t -> bool) (c : Cart) (i : string) :
  In i (ids (filter f c)) -> In i (ids c).
Proof.
  rewrite !in_map_iff. intros (item & Hid & Hin).
  apply filter_In in Hin. exists item. tauto.
Qed.

Lemma NoDup_ids_filter (f : CartItem.t -> bool) (c : Cart) :
  NoDup (ids c) -> NoDup (ids (filter f c)).
Proof.
  induction c as [|item c IH]; cbn; intros Hnd; [constructor|].
  inversion Hnd as [|? ? Hnotin Hnd']; subst.
  destruct (f item); cbn; auto.
  constructor; auto.
  intros Hin. apply Hnotin. eapply in_ids_filter; eassumption.
Qed.

(** [prevCart.find(item => item.id === productId)] succeeds exactly when the
    id is in the cart. *)
Lemma find_id_present (productId : string) (c : Cart) :
  (exists item,
      find (fun item => (CartItem.id item =? productId)%string) c = Some item)
  <-> present productId c.
Proof.
  split.
  - intros (item & Hfind). apply find_some in Hfind as (Hin & Heq).
    apply String.eqb_eq in Heq. exists item; auto.
  - intros (item & Hin & Hid).
    destruct (find _ c) as [found|] eqn:Hfind; [eauto|].
    apply (find_none _ _ Hfind) in Hin. cbn in Hin.
    apply String.eqb_neq in Hin. contradiction.
Qed.

Lemma find_id_absent (productId : string) (c : Cart) :
  ~ present productId c ->
  find (fun item => (CartItem.id item =? productId)%string) c = None.
Proof.
  intros Habs. destruct (find _ c) as [found|] eqn:Hfind; [|reflexivity].
  exfalso. apply Habs, find_id_present. eauto.
Qed.

Lemma present_in_ids (productId : string) (c : Cart) :
  present productId c <-> In productId (ids c).
Proof.
  unfold present. rewrite in_map_iff. split; intros (item & H1 & H2); eauto.
Qed.

(** Each transition keeps the ids of the cart pairwise distinct. *)
Lemma step_NoDup (st : AppState) (op : CartOp) :
  NoDup (ids (cart st)) -> NoDup (ids (cart (step st op))).
Proof.
  intros Hnd. destruct op as [p | productId | productId n]; cbn.
  - destruct (find _ (cart st)) as [found|] eqn:Hfind.
    + rewrite (ids_map_quantity (Product.id p)
                 (fun item => CartItem.quantity item + 1)). exact Hnd.
    + rewrite map_app. cbn.
      apply NoDup_app; [exact Hnd | repeat constructor; intros [] | ].
      intros i Hin [<- | []].
      apply present_in_ids, find_id_present in Hin as (item & Hsome).
      pose proof (eq_trans (eq_sym Hfind) Hsome) as Habsurd. discriminate.
  - apply NoDup_ids_filter, Hnd.
  - destruct (n <=? 0).
    + apply NoDup_ids_filter, Hnd.
    + rewrite (ids_map_quantity productId (fun _ => n)). exact Hnd.
Qed.

Lemma run_NoDup (ops : list CartOp) (st : AppState) :
  NoDup (ids (cart st)) -> NoDup (ids (cart (run ops st))).
Proof.
  revert st. induction ops as [|op ops IH]; intros st Hnd; cbn; [exact Hnd|].
  apply IH, step_NoDup, Hnd.
Qed.

(** The [reduce] of [getTotalCartPrice], started from any accumulator. *)
Lemma reduce_sum (c : Cart) (acc : Z) :
  fold_left
    (fun total item => total + CartItem.price item * CartItem.quantity item)
    c acc
  = acc + sum (map (fun item => CartItem.price item * CartItem.quantity item) c).
Proof.
  revert acc. induction c as [|item c IH]; intros acc; cbn; [lia|].
  rewrite IH. lia.
Qed.

(** C6.  After any sequence of [addToCart], [removeFromCart] and
    [updateCartQuantity] applied to the initial, empty cart, no two items
    of the cart have the same product id, and the total computed by
    [getTotalCartPrice] in minor units is the sum of price times quantity
    over the items of the cart. *)
Theorem cart_ids_distinct_and_total_is_sum (ops : list CartOp) :
  NoDup (map CartItem.id (cart (run ops initialState))) /\
  totalCents (run ops initialState)
    = sum (map (fun item => CartItem.price item * CartItem.quantity item)
               (cart (run ops initialState))).
Proof.
  split.
  - apply run_NoDup. constructor.
  - unfold totalCents. rewrite reduce_sum. lia.
Qed.

(** Reading position [i] of a cart whose quantities were rewritten in place. *)
Lemma nth_error_map_quantity
    (productId : string) (q : CartItem.t -> Z) (c : Cart)
    (i : nat) (item : CartItem.t) :
  nth_error c i = Some item ->
  nth_error
    (map (fun item =>
            if (CartItem.id item =? productId)%string
            then CartItem.with_quantity item (q item)
            else item) c) i
  = Some (if (CartItem.id item =? productId)%string
          then CartItem.with_quantity item (q item)
          else item).
Proof.
  intros Hnth. rewrite nth_error_map, Hnth. reflexivity.
Qed.

(** Rewriting the quantity of an id that is not in the cart changes nothing. *)
Lemma map_quantity_absent (productId : string) (q : CartItem.t -> Z) (c : Cart) :
  ~ present productId c ->
  map (fun item =>
         if (CartItem.id item =? productId)%string
         then CartItem.with_quantity item (q item)
         else item) c
  = c.
Proof.
  induction c as [|item c IH]; intros Habs; cbn; [reflexivity|].
  destruct (CartItem.id item =? productId)%string eqn:Heq.
  - exfalso. apply Habs. exists item. split; [left; reflexivity|].
    apply String.eqb_eq, Heq.
  - rewrite IH; [reflexivity|].
    intros (other & Hin & Hid). apply Habs. exists other. split; [right|]; auto.
Qed.

Lemma filter_id_absent (productId : string) (c : Cart) :
  ~ present productId
      (filter (fun item => negb (CartItem.id item =? productId)%string) c).
Proof.
  intros (item & Hin & Hid). apply filter_In in Hin as (_ & Hkeep).
  apply negb_true_iff, String.eqb_neq in Hkeep. contradiction.
Qed.

(** [find] moves on to the appended part when the first part has no match. *)
Lemma find_app_none (f : CartItem.t -> bool) (c c' : Cart) :
  find f c = None -> find f (c ++ c') = find f c'.
Proof.
  induction c as [|item c IH]; cbn; [reflexivity|].
  destruct (f item); [discriminate | exact IH].
Qed.

(** C7.  [addToCart(p)] on a cart that already holds the id of [p] keeps
    the length and the positions of the cart, adds one to the quantity of
    the item with that id and leaves every other item as it was; on a cart
    that does not hold the id it appends [{...p, quantity: 1}] at the end.
    Adding the same absent product twice therefore ends with a single item
    of quantity 2 after the items already there. *)
Theorem addToCart_increments_or_appends (p : Product.t) (st : AppState) :
  (present (Product.id p) (cart st) ->
     length (cart (addToCart p st)) = length (cart st) /\
     forall (i : nat) (item : CartItem.t),
       nth_error (cart st) i = Some item ->
       (CartItem.id item = Product.id p ->
          nth_error (cart (addToCart p st)) i
          = Some (CartItem.mk (CartItem.product item)
                              (CartItem.quantity item + 1))) /\
       (CartItem.id item <> Product.id p ->
          nth_error (cart (addToCart p st)) i = Some item)) /\
  (~ present (Product.id p) (cart st) ->
     cart (addToCart p st) = cart st ++ [CartItem.mk p 1] /\
     cart (addToCart p (addToCart p st)) = cart st ++ [CartItem.mk p 2]).
Proof.
  split.
  - intros Hpres. apply find_id_present in Hpres as (found & Hfind).
    cbn. rewrite Hfind. split; [apply length_map|].
    intros i item Hnth.
    rewrite (nth_error_map_quantity (Product.id p)
               (fun item => CartItem.quantity item + 1) _ _ _ Hnth).
    split; intros Hid.
    + apply String.eqb_eq in Hid. rewrite Hid. reflexivity.
    + apply String.eqb_neq in Hid. rewrite Hid. reflexivity.
  - intros Habs. pose proof (find_id_absent _ _ Habs) as Hfind.
    assert (Hfirst : cart (addToCart p st) = cart st ++ [CartItem.mk p 1]).
    { cbn. rewrite Hfind. reflexivity. }
    split; [exact Hfirst|].
    unfold addToCart at 1. unfold setCart at 1. cbn [cart].
    rewrite Hfirst, (find_app_none _ _ _ Hfind). cbn.
    rewrite String.eqb_refl, map_app. cbn. rewrite String.eqb_refl.
    rewrite (map_quantity_absent (Product.id p)
               (fun item => CartItem.quantity item + 1) _ Habs).
    reflexivity.
Qed.

(** C8.  [updateCartQuantity(productId, n)] with [n <= 0] is
    [removeFromCart(productId)]: the two give the same state, and the id is
    no longer in the cart.  With [n > 0] the cart keeps its length and
    positions, an item with that id gets quantity [n], and every other item
    is left as it was. *)
Theorem updateCartQuantity_removes_or_replaces
    (productId : string) (n : Z) (st : AppState) :
  (n <= 0 ->
     updateCartQuantity productId n st = removeFromCart productId st /\
     ~ present productId (cart (updateCartQuantity productId n st))) /\
  (0 < n ->
     length (cart (updateCartQuantity productId n st)) = length (cart st) /\
     forall (i : nat) (item : CartItem.t),
       nth_error (cart st) i = Some item ->
       (CartItem.id item = productId ->
          nth_error (cart (updateCartQuantity productId n st)) i
          = Some (CartItem.mk (CartItem.product item) n)) /\
       (CartItem.id item <> productId ->
          nth_error (cart (updateCartQuantity productId n st)) i = Some item)).
Proof.
  split; intros Hn.
  - apply Z.leb_le in Hn.
    unfold updateCartQuantity, removeFromCart, setCart. rewrite Hn.
    split; [reflexivity|]. apply filter_id_absent.
  - apply Z.leb_gt in Hn.
    unfold updateCartQuantity, setCart. rewrite Hn. cbn [cart].
    split; [apply length_map|].
    intros i item Hnth.
    rewrite (nth_error_map_quantity productId (fun _ => n) _ _ _ Hnth).
    split; intros Hid.
    + apply String.eqb_eq in Hid. rewrite Hid. reflexivity.
    + apply String.eqb_neq in Hid. rewrite Hid. reflexivity.
Qed.

(** C10.  [updateCartQuantity(productId, n)] with [n > 0] and an id that is
    not in the cart returns the state it was given: no item is created and
    none is changed. *)
Theorem updateCartQuantity_absent_is_unchanged
    (productId : string) (n : Z) (st : AppState) :
  0 < n ->
  ~ present productId (cart st) ->
  updateCartQuantity productId n st = st.
Proof.
  intros Hn Habs. apply Z.leb_gt in Hn.
  unfold updateCartQuantity, setCart. rewrite Hn.
  rewrite (map_quantity_absent productId (fun _ => n) _ Habs).
  destruct st; reflexivity.
Qed.

End CartProperties.

(* ===================================================================== *)
(** * Properties of the checkout flow *)
(* ===================================================================== *)

Section CheckoutFlowProperties.

Import Client.

Variable REACT_APP_BACKEND_URL : option string.
Variable fetch : string -> list Item.t -> Throws FetchResponse.
Variable stripePromise : Throws bool.

Local Abbreviation pay :=
  (handleStripeCheckoutRedirect REACT_APP_BACKEND_URL fetch stripePromise).

(** [handleStripeCheckoutRedirect] never calls a state setter. *)
Lemma pay_keeps_state (st : AppState) : fst (pay st) = st.
Proof.
  unfold handleStripeCheckoutRedirect.
  destruct (checkoutAttempt _ _ _ st) as [effects [[]|e]]; reflexivity.
Qed.

(** Every path of [handleStripeCheckoutRedirect] that does not hand the
    session to [redirectToCheckout] raises one alert. *)
Lemma pay_alerts_unless_redirected (st : AppState) :
  redirects (snd (pay st)) = [] -> exists msg, alerts (snd (pay st)) = [msg].
Proof.
  unfold handleStripeCheckoutRedirect, checkoutAttempt.
  destruct (fetch _ _) as [response|e]; cbn; [|eauto].
  destruct (ok response); cbn.
  - destruct (json response) as [session|e]; cbn; [|eauto].
    destruct stripePromise as [[|]|e]; cbn; eauto.
    discriminate.
  - destruct (json response) as [errorData|e]; cbn; eauto.
Qed.

(** C9.  The flow has two views and starts in Browsing.
    [handleProceedToCheckout] from Browsing moves to Reviewing without any
    alert when the cart is non-empty, and with an empty cart raises the
    alert "Your cart is empty! Please add some products." and leaves the
    state as it was.  [handleBackToShopping] ends in Browsing from any
    state.  [handleStripeCheckoutRedirect] returns the state it was given,
    so from Reviewing the view stays Reviewing, and whenever it does not
    redirect to the provider it raises one alert. *)
Theorem checkout_flow_two_views (st : AppState) :
  view initialState = Browsing /\
  (view st = Browsing -> cart st <> [] ->
     view (fst (handleProceedToCheckout st)) = Reviewing /\
     cart (fst (handleProceedToCheckout st)) = cart st /\
     snd (handleProceedToCheckout st) = []) /\
  (view st = Browsing -> cart st = [] ->
     handleProceedToCheckout st
     = (st, [alert "Your cart is empty! Please add some products."])) /\
  (view (fst (handleBackToShopping st)) = Browsing /\
   cart (fst (handleBackToShopping st)) = cart st) /\
  (view st = Reviewing ->
     view (fst (pay st)) = Reviewing /\
     fst (pay st) = st /\
     (redirects (snd (pay st)) = [] ->
        exists msg, alerts (snd (pay st)) = [msg])).
Proof.
  split; [reflexivity|]. split; [|split; [|split]].
  - intros _ Hne. unfold handleProceedToCheckout.
    destruct (cart st) as [|item c] eqn:Hcart; [contradiction|].
    cbn. rewrite Hcart. auto.
  - intros _ Hempty. unfold handleProceedToCheckout. rewrite Hempty.
    reflexivity.
  - split; reflexivity.
  - intros Hview. rewrite pay_keeps_state.
    split; [exact Hview|]. split; [reflexivity|].
    apply pay_alerts_unless_redirected.
Qed.

End CheckoutFlowProperties.

(* ===================================================================== *)
(** * The properties at the sample inputs *)
(* ===================================================================== *)

(** A webhook signed with another secret is answered 400 and reaches no arm. *)
Lemma webhook_rejects_failed_verification_witness :
  Samples.constructEvent
    (Server.body (Samples.forged "checkout.session.completed"))
    (Server.stripe_signature (Samples.forged "checkout.session.completed"))
    (Server.STRIPE_WEBHOOK_SECRET Samples.env)
  = inr (Server.mkError
           "No signatures found matching the expected signature for payload.") /\
  Server.responses
    (Server.trace
       (Server.handleWebhook Samples.env Samples.constructEvent
          (Samples.forged "checkout.session.completed")))
  = [Server.mkResponse 400
       (Server.send
          "Webhook Error: No signatures found matching the expected signature for payload.")] /\
  Server.entered
    (Server.trace
       (Server.handleWebhook Samples.env Samples.constructEvent
          (Samples.forged "checkout.session.completed")))
  = [].
Proof.
  split; [reflexivity|].
  apply (webhook_rejects_failed_verification Samples.env Samples.constructEvent
           (Samples.forged "checkout.session.completed")
           (Server.mkError
              "No signatures found matching the expected signature for payload.")).
  reflexivity.
Defined.

(** Signed webhooks of a recognised type and of an unknown type are
    acknowledged with 200; each enters one arm. *)
Lemma webhook_acknowledges_verified_event_witness :
  (Server.responses
     (Server.trace
        (Server.handleWebhook Samples.env Samples.constructEvent
           (Samples.signed "checkout.session.completed")))
   = [Server.mkResponse 200 (Server.json_received true)] /\
   Server.entered
     (Server.trace
        (Server.handleWebhook Samples.env Samples.constructEvent
           (Samples.signed "checkout.session.completed")))
   = [Server.checkout_session_completed]) /\
  Server.entered
    (Server.trace
       (Server.handleWebhook Samples.env Samples.constructEvent
          (Samples.signed "payment_intent.succeeded")))
  = [Server.payment_intent_succeeded] /\
  Server.responses
    (Server.trace
       (Server.handleWebhook Samples.env Samples.constructEvent
          (Samples.signed "invoice.paid")))
  = [Server.mkResponse 200 (Server.json_received true)].
Proof.
  pose (object := Server.object [("id", Server.str "obj_test_1")]).
  pose (data := Server.object [("object", object)]).
  destruct (webhook_acknowledges_verified_event
              Samples.env Samples.constructEvent
              (Samples.signed "checkout.session.completed")
              (Samples.event_of "checkout.session.completed")
              (Server.str "checkout.session.completed")
              eq_refl eq_refl) as (Hcs & _ & _).
  destruct (webhook_acknowledges_verified_event
              Samples.env Samples.constructEvent
              (Samples.signed "payment_intent.succeeded")
              (Samples.event_of "payment_intent.succeeded")
              (Server.str "payment_intent.succeeded")
              eq_refl eq_refl) as (_ & Hpi & _).
  destruct (webhook_acknowledges_verified_event
              Samples.env Samples.constructEvent
              (Samples.signed "invoice.paid")
              (Samples.event_of "invoice.paid")
              (Server.str "invoice.paid")
              eq_refl eq_refl) as (_ & _ & Hother).
  rewrite (Hcs data object (Server.str "obj_test_1")
             eq_refl eq_refl eq_refl eq_refl).
  rewrite (Hpi data object (Server.str "obj_test_1")
             eq_refl eq_refl eq_refl eq_refl).
  rewrite (Hother "invoice.paid"); [|discriminate|discriminate|reflexivity].
  repeat split.
Defined.

(** A signed webhook whose event has a recognised type and no [data] enters
    the arm of that type and is never answered: the read of
    [event.data.object] throws after the [try].  A signed payload that
    decodes to [null] is answered 400. *)
Lemma webhook_event_without_data_is_not_acknowledged :
  Samples.constructEvent_decoding Samples.event_without_data
    (Server.body (Samples.signed "checkout.session.completed"))
    (Server.stripe_signature (Samples.signed "checkout.session.completed"))
    (Server.STRIPE_WEBHOOK_SECRET Samples.env)
  = inl Samples.event_without_data /\
  Server.responses
    (Server.trace
       (Server.handleWebhook Samples.env
          (Samples.constructEvent_decoding Samples.event_without_data)
          (Samples.signed "checkout.session.completed")))
  = [] /\
  Server.entered
    (Server.trace
       (Server.handleWebhook Samples.env
          (Samples.constructEvent_decoding Samples.event_without_data)
          (Samples.signed "checkout.session.completed")))
  = [Server.checkout_session_completed] /\
  Server.responses
    (Server.trace
       (Server.handleWebhook Samples.env
          (Samples.constructEvent_decoding Server.null)
          (Samples.signed "checkout.session.completed")))
  = [Server.mkResponse 400
       (Server.send
          "Webhook Error: Cannot read properties of null (reading 'type')")].
Proof. repeat split. Qed.

(** [createSession([])], [createSession(null)] and a body without [items]. *)
Lemma createSession_rejects_missing_items_witness :
  (Server.responses
     (Server.trace
        (Server.createCheckoutSession Samples.env Samples.sessions_create_ok
           (Server.mkCheckoutRequest (Server.items_array []))))
   = [Server.mkResponse 400 (Server.json_error "No items provided")] /\
   Server.provider_calls
     (Server.trace
        (Server.createCheckoutSession Samples.env Samples.sessions_create_ok
           (Server.mkCheckoutRequest (Server.items_array []))))
   = []) /\
  (Server.responses
     (Server.trace
        (Server.createCheckoutSession Samples.env Samples.sessions_create_ok
           (Server.mkCheckoutRequest Server.items_null)))
   = [Server.mkResponse 400 (Server.json_error "No items provided")] /\
   Server.provider_calls
     (Server.trace
        (Server.createCheckoutSession Samples.env Samples.sessions_create_ok
           (Server.mkCheckoutRequest Server.items_null)))
   = []) /\
  (Server.responses
     (Server.trace
        (Server.createCheckoutSession Samples.env Samples.sessions_create_ok
           (Server.mkCheckoutRequest Server.items_undefined)))
   = [Server.mkResponse 400 (Server.json_error "No items provided")] /\
   Server.provider_calls
     (Server.trace
        (Server.createCheckoutSession Samples.env Samples.sessions_create_ok
           (Server.mkCheckoutRequest Server.items_undefined)))
   = []).
Proof.
  split; [|split].
  - apply (createSession_rejects_missing_items
             Samples.env Samples.sessions_create_ok).
    right; right; reflexivity.
  - apply (createSession_rejects_missing_items
             Samples.env Samples.sessions_create_ok).
    right; left; reflexivity.
  - apply (createSession_rejects_missing_items
             Samples.env Samples.sessions_create_ok).
    left; reflexivity.
Defined.

(** Two bags of coffee at 1500: one line item of unit amount 1500 and
    quantity 2 goes upstream, and the provider's session id comes back. *)
Lemma createSession_forwards_items_and_returns_id_witness :
  Samples.coffee_twice <> [] /\
  exists params,
    Server.provider_calls
      (Server.trace
         (Server.createCheckoutSession Samples.env Samples.sessions_create_ok
            (Server.mkCheckoutRequest (Server.items_array Samples.coffee_twice))))
    = [params] /\
    map (fun li =>
           (Server.ProductData.name
              (Server.PriceData.product_data (Server.LineItem.price_data li)),
            Server.PriceData.unit_amount (Server.LineItem.price_data li),
            Server.LineItem.quantity li))
        (Server.SessionCreateParams.line_items params)
    = [(Server.str "Premium Coffee Beans", Server.number 1500, Server.number 2)] /\
    Server.responses
      (Server.trace
         (Server.createCheckoutSession Samples.env Samples.sessions_create_ok
            (Server.mkCheckoutRequest (Server.items_array Samples.coffee_twice))))
    = [Server.mkResponse 200 (Server.json_id "cs_test_a1B2c3")].
Proof.
  assert (Hne : Samples.coffee_twice <> []) by discriminate.
  split; [exact Hne|].
  destruct (createSession_forwards_items_and_returns_id
              Samples.env Samples.sessions_create_ok Samples.coffee_twice
              (Server.Session.mk "cs_test_a1B2c3") Hne
              (fun _ _ => eq_refl))
    as (params & Hcalls & Hitems & _ & _ & _ & Hresp).
  exists params. split; [exact Hcalls|]. split; [exact Hitems | exact Hresp].
Defined.

(** The same request against a provider that refuses it. *)
Lemma createSession_reports_upstream_failure_witness :
  Samples.coffee_twice <> [] /\
  Server.responses
    (Server.trace
       (Server.createCheckoutSession Samples.env Samples.sessions_create_fails
          (Server.mkCheckoutRequest (Server.items_array Samples.coffee_twice))))
  = [Server.mkResponse 500
       (Server.json_error "Invalid API Key provided: sk_test_xx")].
Proof.
  assert (Hne : Samples.coffee_twice <> []) by discriminate.
  split; [exact Hne|].
  destruct (createSession_reports_upstream_failure
              Samples.env Samples.sessions_create_fails Samples.coffee_twice
              (Server.mkError "Invalid API Key provided: sk_test_xx") Hne
              (fun _ _ => eq_refl))
    as (params & _ & Hresp).
  exact Hresp.
Defined.

(** Coffee added twice to the empty cart, and once more to a cart that
    already holds two. *)
Lemma addToCart_increments_or_appends_witness :
  Client.cart
    (Client.addToCart Samples.coffee
       (Client.addToCart Samples.coffee Client.initialState))
  = [Client.CartItem.mk Samples.coffee 2] /\
  nth_error (Client.cart (Client.addToCart Samples.coffee Samples.browsing_coffee)) 0
  = Some (Client.CartItem.mk Samples.coffee 3).
Proof.
  split.
  - apply (addToCart_increments_or_appends Samples.coffee Client.initialState).
    intros (item & [] & _).
  - destruct (addToCart_increments_or_appends
                Samples.coffee Samples.browsing_coffee) as (Hpresent & _).
    destruct Hpresent as (_ & Hnth).
    + exists (Client.CartItem.mk Samples.coffee 2).
      split; [left; reflexivity | reflexivity].
    + apply (Hnth 0%nat (Client.CartItem.mk Samples.coffee 2));
        reflexivity.
Defined.

(** [setQuantity(id, 0)], [setQuantity(id, -1)] and [setQuantity(id, 5)] on a
    cart holding that id. *)
Lemma updateCartQuantity_removes_or_replaces_witness :
  Client.updateCartQuantity "product_1" 0 Samples.browsing_coffee
  = Client.removeFromCart "product_1" Samples.browsing_coffee /\
  Client.updateCartQuantity "product_1" (-1) Samples.browsing_coffee
  = Client.removeFromCart "product_1" Samples.browsing_coffee /\
  nth_error
    (Client.cart (Client.updateCartQuantity "product_1" 5 Samples.browsing_coffee)) 0
  = Some (Client.CartItem.mk Samples.coffee 5).
Proof.
  split; [|split].
  - apply (updateCartQuantity_removes_or_replaces
             "product_1" 0 Samples.browsing_coffee). lia.
  - apply (updateCartQuantity_removes_or_replaces
             "product_1" (-1) Samples.browsing_coffee). lia.
  - destruct (updateCartQuantity_removes_or_replaces
                "product_1" 5 Samples.browsing_coffee) as (_ & Hpos).
    destruct Hpos as (_ & Hnth); [lia|].
    apply (Hnth 0%nat (Client.CartItem.mk Samples.coffee 2)); reflexivity.
Defined.

(** Setting the quantity of the mug on a cart that holds only coffee. *)
Lemma updateCartQuantity_absent_is_unchanged_witness :
  0 < 3 /\
  ~ Client.present "product_2" (Client.cart Samples.browsing_coffee) /\
  Client.updateCartQuantity "product_2" 3 Samples.browsing_coffee
  = Samples.browsing_coffee.
Proof.
  assert (Habs : ~ Client.present "product_2"
                     (Client.cart Samples.browsing_coffee)).
  { intros (item & [<- | []] & Hid). discriminate Hid. }
  split; [lia|]. split; [exact Habs|].
  apply (updateCartQuantity_absent_is_unchanged
           "product_2" 3 Samples.browsing_coffee); [lia | exact Habs].
Defined.

(** Proceeding with coffee in the cart, proceeding with an empty cart, and
    paying while the backend cannot be reached. *)
Lemma checkout_flow_two_views_witness :
  Client.view (fst (Client.handleProceedToCheckout Samples.browsing_coffee))
  = Client.Reviewing /\
  Client.handleProceedToCheckout Samples.browsing_empty
  = (Samples.browsing_empty,
     [Client.alert "Your cart is empty! Please add some products."]) /\
  Client.view
    (fst (Client.handleStripeCheckoutRedirect
            (Some "http://localhost:5000") Samples.fetch_offline (inl true)
            Samples.reviewing_coffee))
  = Client.Reviewing.
Proof.
  split; [|split].
  - destruct (checkout_flow_two_views
                (Some "http://localhost:5000") Samples.fetch_offline (inl true)
                Samples.browsing_coffee) as (_ & Hproceed & _).
    apply Hproceed; [reflexivity | discriminate].
  - destruct (checkout_flow_two_views
                (Some "http://localhost:5000") Samples.fetch_offline (inl true)
                Samples.browsing_empty) as (_ & _ & Hwarn & _).
    apply Hwarn; reflexivity.
  - destruct (checkout_flow_two_views
                (Some "http://localhost:5000") Samples.fetch_offline (inl true)
                Samples.reviewing_coffee) as (_ & _ & _ & _ & Hpay).
    apply Hpay. reflexivity.
Defined.

(** The whole round trip on the sample data: the client posts its cart, the
    backend's provider call is refused, the backend answers 500 with the
    provider's message, and the client shows it in an alert. *)
Example pay_shows_upstream_message :
  Client.handleStripeCheckoutRedirect
    (Some "http://localhost:5000")
    (Samples.fetch_from Samples.sessions_create_fails) (inl true)
    Samples.reviewing_coffee
  = (Samples.reviewing_coffee,
     [Client.fetch_post "http://localhost:5000/api/create-checkout-session"
        Samples.coffee_twice;
      Client.console_error
        [Client.text "Error initiating Stripe Checkout:";
         Client.thrown (Client.mkError "Invalid API Key provided: sk_test_xx")];
      Client.alert
        "Could not initiate checkout: Invalid API Key provided: sk_test_xx. Please try again."]).
Proof. reflexivity. Qed.

(** The round trip when the provider accepts: the session id it issued is
    handed to [redirectToCheckout]. *)
Example pay_redirects_with_session_id :
  Client.handleStripeCheckoutRedirect
    (Some "http://localhost:5000")
    (Samples.fetch_from Samples.sessions_create_ok) (inl true)
    Samples.reviewing_coffee
  = (Samples.reviewing_coffee,
     [Client.fetch_post "http://localhost:5000/api/create-checkout-session"
        Samples.coffee_twice;
      Client.redirectToCheckout (Some "cs_test_a1B2c3")]).
Proof. reflexivity. Qed.

(** A run of cart operations from the empty cart. *)
Example cart_run_sample :
  Client.cart
    (Client.run
       [Client.add Samples.coffee; Client.add Samples.mug;
        Client.add Samples.coffee; Client.setQuantity "product_2" 5;
        Client.setQuantity "product_1" (-1)]
       Client.initialState)
  = [Client.CartItem.mk Samples.mug 5].
Proof. reflexivity. Qed.

(* ===================================================================== *)
(** * Further properties of the backend *)
(* ===================================================================== *)

Section BackendResponses.

Import Server.

Variable env : Env.
Variable constructEvent :
  string -> option string -> option string -> Throws Event.t.
Variable sessions_create : SessionCreateParams.t -> Throws Session.t.

Local Abbreviation handleWebhook := (Server.handleWebhook env constructEvent).
Local Abbreviation createCheckoutSession :=
  (Server.createCheckoutSession env sessions_create).

(** The paths of the checkout-session handler. *)
Lemma createCheckoutSession_paths (req : CheckoutRequest) :
  createCheckoutSession req =
    if no_items (items req) then
      ([respond (mkResponse 400 (json_error "No items provided"))], None)
    else
      match items_map toLineItem (items req) with
      | inr error =>
          ([console_error [text "Error creating checkout session:"; thrown error];
            respond (mkResponse 500 (json_error (message error)))], Some tt)
      | inl lineItems =>
          match sessions_create (sessionParams env lineItems) with
          | inl session =>
              ([sessions_create_call (sessionParams env lineItems);
                respond (mkResponse 200 (json_id (Session.id session)))],
               Some tt)
          | inr error =>
              ([sessions_create_call (sessionParams env lineItems);
                console_error
                  [text "Error creating checkout session:"; thrown error];
                respond (mkResponse 500 (json_error (message error)))],
               Some tt)
          end
      end.
Proof.
  unfold Server.createCheckoutSession.
  destruct (no_items (items req)); [reflexivity|].
  destruct (items_map toLineItem (items req)) as [lineItems|error];
    [|reflexivity].
  cbn. destruct (sessions_create _); reflexivity.
Qed.

(** The callback throws exactly on [null] and [undefined]. *)
Lemma toLineItem_throws (item : Value) :
  (exists e, toLineItem item = inr e) <-> item = null \/ item = undefined.
Proof.
  split.
  - intros (e & He). destruct item; try discriminate He; auto.
  - intros [-> | ->]; eexists; reflexivity.
Qed.

Lemma map_throws_throws (l : list Value) :
  (exists e, map_throws toLineItem l = inr e) <-> In null l \/ In undefined l.
Proof.
  induction l as [|x l IH]; cbn [map_throws In].
  - split; [intros (e & He); discriminate He | tauto].
  - destruct (toLineItem x) as [y|e] eqn:Hx.
    + assert (Hnot : x <> null /\ x <> undefined).
      { split; intros ->; discriminate Hx. }
      destruct (map_throws toLineItem l) as [ys|e] eqn:Hl.
      * split; [intros (e & He); discriminate He|].
        intros H. exfalso.
        assert (Hrest : In null l \/ In undefined l).
        { destruct Hnot as (Hnull & Hundef).
          destruct H as [[Heq | Hin] | [Heq | Hin]]; auto;
            exfalso; congruence. }
        apply IH in Hrest as (e & He). discriminate He.
      * split; [|intros _; eexists; reflexivity].
        intros _. destruct (proj1 IH (ex_intro _ e eq_refl)); tauto.
    + split; [|intros _; eexists; reflexivity].
      intros _.
      destruct (proj1 (toLineItem_throws x) (ex_intro _ e Hx)) as [-> | ->];
        auto.
Qed.

(** The webhook handler when the [try] block completes with an event of a
    recognised type: it answers exactly when [event.data.object] can be
    read. *)
Lemma dispatch_recognised (event : Value) (type : string) :
  get event "type" = inl (str type) ->
  type = "checkout.session.completed" \/ type = "payment_intent.succeeded" ->
  (carries_object event -> snd (dispatch event) = Some tt) /\
  (~ carries_object event -> snd (dispatch event) = None).
Proof.
  intros Htype Hrec. unfold dispatch, carries_object. rewrite Htype.
  cbn [evaluate bind pure app].
  assert (Harm :
    forall (b : Branch) (label : string),
      let arm :=
        (emit (enter b) ;;
         data <- evaluate (get event "data") ;;
         object <- evaluate (get data "object") ;;
         id <- evaluate (get object "id") ;;
         emit (console_log [text label; shown id]))%handler in
      ((exists data session id,
          get event "data" = inl data /\ get data "object" = inl session /\
          get session "id" = inl id) -> snd arm = Some tt) /\
      (~ (exists data session id,
            get event "data" = inl data /\ get data "object" = inl session /\
            get session "id" = inl id) -> snd arm = None)).
  { intros b label. cbn zeta. split.
    - intros (data & session & id & Hd & Ho & Hi).
      cbn. rewrite Hd. cbn. rewrite Ho. cbn. rewrite Hi. reflexivity.
    - intros Hnone. cbn.
      destruct (get event "data") as [data|e]; [|reflexivity]. cbn.
      destruct (get data "object") as [session|e] eqn:Ho; [|reflexivity]. cbn.
      destruct (get session "id") as [id|e] eqn:Hi; [|reflexivity].
      exfalso. apply Hnone. exists data, session, id. auto. }
  destruct Hrec as [-> | ->].
  - pose proof (Harm checkout_session_completed
                  "✅ Checkout Session Completed:") as H.
    cbv zeta in H.
    match type of H with
    | (_ -> snd ?a = _) /\ _ => set (arm := a) in *
    end.
    change (strict_equals (str "checkout.session.completed")
              "checkout.session.completed") with true.
    cbv iota. clearbody arm. destruct arm as [t r]. exact H.
  - pose proof (Harm payment_intent_succeeded
                  "✅ Payment Intent Succeeded:") as H.
    cbv zeta in H.
    match type of H with
    | (_ -> snd ?a = _) /\ _ => set (arm := a) in *
    end.
    change (strict_equals (str "payment_intent.succeeded")
              "checkout.session.completed") with false.
    change (strict_equals (str "payment_intent.succeeded")
              "payment_intent.succeeded") with true.
    cbv iota. clearbody arm. destruct arm as [t r]. exact H.
Qed.

(** X1.  The catalogue handler and the checkout-session handler write
    exactly one response on every path, whatever JSON value [items] is and
    whether the provider call returns or throws.  The webhook handler never
    writes more than one response, and it writes none exactly when
    verification returned an event of type ["checkout.session.completed"]
    or ["payment_intent.succeeded"] whose [data.object] cannot be read:
    the exception leaves the handler and the request stays unanswered. *)
Theorem handlers_respond_once_unless_object_missing
    (hook : WebhookRequest) (req : CheckoutRequest) :
  (length (responses (trace (handleWebhook hook))) <= 1)%nat /\
  (responses (trace (handleWebhook hook)) = [] <->
     exists event type,
       constructEvent (body hook) (stripe_signature hook)
         (STRIPE_WEBHOOK_SECRET env) = inl event /\
       get event "type" = inl (str type) /\
       (type = "checkout.session.completed" \/
        type = "payment_intent.succeeded") /\
       ~ carries_object event) /\
  length (responses (trace (createCheckoutSession req))) = 1%nat /\
  length (responses (trace getProducts)) = 1%nat.
Proof.
  assert (Hhook :
    (length (responses (trace (handleWebhook hook))) <= 1)%nat /\
    (responses (trace (handleWebhook hook)) = [] <->
       exists event type,
         constructEvent (body hook) (stripe_signature hook)
           (STRIPE_WEBHOOK_SECRET env) = inl event /\
         get event "type" = inl (str type) /\
         (type = "checkout.session.completed" \/
          type = "payment_intent.succeeded") /\
         ~ carries_object event)).
  { destruct (constructEvent (body hook) (stripe_signature hook)
                (STRIPE_WEBHOOK_SECRET env)) as [event|err] eqn:Hverify.
    2:{ rewrite (handleWebhook_trace_rejected env constructEvent hook err Hverify).
        split; [cbn; lia|]. split; [discriminate|].
        intros (event & type & Hev & _). discriminate Hev. }
    destruct (get event "type") as [type|err] eqn:Htype.
    2:{ unfold Server.handleWebhook. rewrite Hverify, Htype.
        split; [cbn; lia|]. split; [discriminate|].
        intros (event' & type' & Hev & Hty & _).
        injection Hev as <-. rewrite Htype in Hty. discriminate Hty. }
    destruct (to_string type) as [label|err] eqn:Hlabel.
    2:{ unfold Server.handleWebhook. rewrite Hverify, Htype, Hlabel.
        split; [cbn; lia|]. split; [discriminate|].
        intros (event' & type' & Hev & Hty & _).
        injection Hev as <-. rewrite Htype in Hty. injection Hty as ->.
        discriminate Hlabel. }
    rewrite (handleWebhook_trace_verified env constructEvent hook event type
               label Hverify Htype Hlabel).
    cbn [trace fst]. rewrite !responses_app, dispatch_responses. cbn [app].
    assert (Hrecognised :
      forall s, type = str s ->
        s = "checkout.session.completed" \/ s = "payment_intent.succeeded" ->
        (snd (dispatch event) = None <-> ~ carries_object event)).
    { intros s -> Hrec.
      destruct (dispatch_recognised event s Htype Hrec) as (Hyes & Hno).
      split; [|exact Hno].
      intros Hnone Hcarries. rewrite (Hyes Hcarries) in Hnone.
      discriminate Hnone. }
    assert (Hother :
      type <> str "checkout.session.completed" ->
      type <> str "payment_intent.succeeded" ->
      snd (dispatch event) = Some tt).
    { intros H1 H2.
      rewrite (dispatch_default event type label Htype H1 H2 Hlabel).
      reflexivity. }
    destruct (snd (dispatch event)) as [[]|] eqn:Hend.
    - split; [cbn; lia|]. split; [discriminate|].
      intros (event' & s & Hev & Hty & Hrec & Hnot).
      injection Hev as <-. rewrite Htype in Hty. injection Hty as ->.
      apply (Hrecognised s eq_refl Hrec) in Hnot. discriminate Hnot.
    - split; [cbn; lia|]. split; [|reflexivity]. intros _.
      destruct type as [| |b|n|s|elements|properties];
        try (exfalso;
             assert (Habsurd : @None unit = Some tt)
               by (apply Hother; discriminate);
             discriminate Habsurd).
      destruct (String.eqb_spec s "checkout.session.completed") as [-> | H1].
      { exists event, "checkout.session.completed".
        repeat split; auto. apply (Hrecognised _ eq_refl); auto. }
      destruct (String.eqb_spec s "payment_intent.succeeded") as [-> | H2].
      { exists event, "payment_intent.succeeded".
        repeat split; auto. apply (Hrecognised _ eq_refl); auto. }
      exfalso.
      assert (Habsurd : @None unit = Some tt) by (apply Hother; congruence).
      discriminate Habsurd. }
  destruct Hhook as (Hmost & Hnone).
  split; [exact Hmost|]. split; [exact Hnone|]. split; [|reflexivity].
  rewrite createCheckoutSession_paths.
  destruct (no_items (items req)); [reflexivity|].
  destruct (items_map toLineItem (items req)); [|reflexivity].
  destruct (sessions_create _); reflexivity.
Qed.

(** X2.  The checkout-session handler calls the provider at most once.  It
    makes no call exactly when [items] is falsy or has length 0, or when
    [items.map] throws, which happens exactly when [items] is not an array
    or is an array holding [null].  The status it answers with is 400
    exactly when [items] is falsy or has length 0, 200 exactly when the one
    provider call returned a session, and 500 exactly when [items.map]
    threw or the provider call threw. *)
Theorem createSession_status_follows_provider (req : CheckoutRequest) :
  (provider_calls (trace (createCheckoutSession req)) = [] <->
     no_items (items req) = true \/
     exists e, items_map toLineItem (items req) = inr e) /\
  ((exists e, items_map toLineItem (items req) = inr e) <->
     forall elements,
       items req = array elements ->
       In null elements \/ In undefined elements) /\
  (length (provider_calls (trace (createCheckoutSession req))) <= 1)%nat /\
  (forall r,
     In r (responses (trace (createCheckoutSession req))) ->
     (status r = 400 <-> no_items (items req) = true) /\
     (status r = 200 <->
        exists params session,
          provider_calls (trace (createCheckoutSession req)) = [params] /\
          sessions_create params = inl session) /\
     (status r = 500 <->
        (no_items (items req) = false /\
         exists e, items_map toLineItem (items req) = inr e) \/
        exists params err,
          provider_calls (trace (createCheckoutSession req)) = [params] /\
          sessions_create params = inr err)).
Proof.
  split; [|split; [|split]].
  - rewrite createCheckoutSession_paths.
    destruct (no_items (items req)); [split; auto|].
    destruct (items_map toLineItem (items req)) as [lineItems|error].
    + destruct (sessions_create _) as [session|err]; cbn;
        (split; [discriminate|]);
        intros [H | (e' & H)]; discriminate H.
    + cbn. split; [|reflexivity]. intros _. right. eexists; reflexivity.
  - destruct (items req) as [| | | | |elements|] eqn:Hitems; cbn [items_map];
      try (split; [intros _ elements' H; discriminate H
                  | intros _; eexists; reflexivity]).
    rewrite map_throws_throws. split.
    + intros Hin elements' H. injection H as <-. exact Hin.
    + intros H. apply H. reflexivity.
  - rewrite createCheckoutSession_paths.
    destruct (no_items (items req)); [cbn; lia|].
    destruct (items_map toLineItem (items req)) as [lineItems|error];
      [|cbn; lia].
    destruct (sessions_create _); cbn; lia.
  - intros r. rewrite createCheckoutSession_paths.
    destruct (no_items (items req)) eqn:Hnone.
    { intros [<- | []]. cbn. repeat split; try discriminate; try reflexivity.
      - intros (p & s & Hp & _). discriminate Hp.
      - intros [(Hfalse & _) | (p & e & Hp & _)]; discriminate. }
    destruct (items_map toLineItem (items req)) as [lineItems|error] eqn:Hmap.
    2:{ cbn. intros [<- | []].
        cbn. repeat split; try discriminate; try reflexivity.
        - intros (p & s & Hp & _). discriminate Hp.
        - intros _. left. split; [reflexivity|]. eexists; reflexivity. }
    destruct (sessions_create (sessionParams env lineItems))
      as [session|err] eqn:Hcall.
    + cbn. intros [<- | []].
      cbn. repeat split; try discriminate; try reflexivity.
      * intros _. exists (sessionParams env lineItems), session. auto.
      * intros [(_ & e & He) | (p & e & Hp & He)]; [discriminate He|].
        injection Hp as <-. rewrite Hcall in He. discriminate He.
    + cbn. intros [<- | []].
      cbn. repeat split; try discriminate; try reflexivity.
      * intros (p & s & Hp & Hs). injection Hp as <-.
        rewrite Hcall in Hs. discriminate Hs.
      * intros _. right. exists (sessionParams env lineItems), err. auto.
Qed.

End BackendResponses.

(* ===================================================================== *)
(** * Further properties of the cart *)
(* ===================================================================== *)

Section CartArithmetic.

Import Client.

Local Abbreviation ids := (map CartItem.id).

(** The update of [addToCart] and [updateCartQuantity]: a new quantity for
    the items with the given id. *)
Local Abbreviation rewrite_quantity productId q :=
  (map (fun item : CartItem.t =>
          if (CartItem.id item =? productId)%string
          then CartItem.with_quantity item (q item)
          else item)).

(** The filter of [removeFromCart] and [updateCartQuantity]. *)
Local Abbreviation drop productId :=
  (filter (fun item : CartItem.t => negb (CartItem.id item =? productId)%string)).

Lemma fold_left_sum (g : CartItem.t -> Z) (c : Cart) (acc : Z) :
  fold_left (fun total item => total + g item) c acc = acc + sum (map g c).
Proof.
  revert acc. induction c as [|item c IH]; intros acc; cbn; [lia|].
  rewrite IH. lia.
Qed.

Lemma drop_absent (productId : string) (c : Cart) :
  ~ present productId c -> drop productId c = c.
Proof.
  induction c as [|item c IH]; intros Habs; cbn; [reflexivity|].
  destruct (CartItem.id item =? productId)%string eqn:Heq; cbn.
  - exfalso. apply Habs. exists item. split; [left; reflexivity|].
    apply String.eqb_eq, Heq.
  - f_equal. apply IH. intros (other & Hin & Hid).
    apply Habs. exists other. split; [right|]; auto.
Qed.

(** Dropping an id after rewriting its quantity is dropping it at once. *)
Lemma drop_rewrite_quantity
    (productId : string) (q : CartItem.t -> Z) (c : Cart) :
  drop productId (rewrite_quantity productId q c) = drop productId c.
Proof.
  induction c as [|item c IH]; [reflexivity|].
  cbn [map filter].
  destruct (CartItem.id item =? productId)%string eqn:Heq.
  - rewrite id_with_quantity, Heq. cbn [negb]. exact IH.
  - rewrite Heq. cbn [negb]. f_equal. exact IH.
Qed.

Lemma not_present_tail (productId : string) (item : CartItem.t) (c : Cart) :
  ~ In productId (ids c) -> ~ present productId c.
Proof. intros Hnotin Hpres. apply Hnotin, present_in_ids, Hpres. Qed.

(** With distinct ids, an id names one item. *)
Lemma same_id_same_item (c : Cart) (a b : CartItem.t) :
  NoDup (ids c) -> In a c -> In b c -> CartItem.id a = CartItem.id b -> a = b.
Proof.
  induction c as [|x c IH]; intros Hnd Ha Hb Hid; [contradiction|].
  inversion Hnd as [|? ? Hnotin Hnd']; subst.
  destruct Ha as [-> | Ha], Hb as [-> | Hb]; auto.
  - exfalso. apply Hnotin. rewrite Hid. apply in_map, Hb.
  - exfalso. apply Hnotin. rewrite <- Hid. apply in_map, Ha.
Qed.

(** What rewriting the quantity of [item] does to a sum over the cart. *)
Lemma sum_rewrite_quantity
    (g : CartItem.t -> Z) (q : CartItem.t -> Z) (c : Cart) (item : CartItem.t) :
  NoDup (ids c) -> In item c ->
  sum (map g (rewrite_quantity (CartItem.id item) q c))
  = sum (map g c) - g item + g (CartItem.with_quantity item (q item)).
Proof.
  induction c as [|x c IH]; intros Hnd Hin; [contradiction|].
  inversion Hnd as [|? ? Hnotin Hnd']; subst.
  destruct Hin as [-> | Hin].
  - cbn. rewrite String.eqb_refl.
    rewrite (map_quantity_absent (CartItem.id item) q c
               (not_present_tail _ item c Hnotin)).
    lia.
  - cbn. destruct (CartItem.id x =? CartItem.id item)%string eqn:Heq.
    + exfalso. apply String.eqb_eq in Heq. apply Hnotin.
      rewrite Heq. apply in_map, Hin.
    + cbn. rewrite (IH Hnd' Hin). lia.
Qed.

(** What dropping [item] does to a sum over the cart. *)
Lemma sum_drop (g : CartItem.t -> Z) (c : Cart) (item : CartItem.t) :
  NoDup (ids c) -> In item c ->
  sum (map g (drop (CartItem.id item) c)) = sum (map g c) - g item.
Proof.
  induction c as [|x c IH]; intros Hnd Hin; [contradiction|].
  inversion Hnd as [|? ? Hnotin Hnd']; subst.
  destruct Hin as [-> | Hin].
  - cbn. rewrite String.eqb_refl. cbn.
    rewrite (drop_absent (CartItem.id item) c
               (not_present_tail _ item c Hnotin)).
    lia.
  - cbn. destruct (CartItem.id x =? CartItem.id item)%string eqn:Heq.
    + exfalso. apply String.eqb_eq in Heq. apply Hnotin.
      rewrite Heq. apply in_map, Hin.
    + cbn. rewrite (IH Hnd' Hin). lia.
Qed.

Lemma sum_app (l l' : list Z) : sum (l ++ l') = sum l + sum l'.
Proof. induction l as [|x l IH]; cbn; [reflexivity | rewrite IH; lia]. Qed.

Lemma Forall_kept (P : CartItem.t -> Prop) (f : CartItem.t -> bool) (c : Cart) :
  Forall P c -> Forall P (filter f c).
Proof.
  rewrite !Forall_forall. intros Hall item Hin.
  apply filter_In in Hin. apply Hall, Hin.
Qed.

Lemma step_well_formed (source : list Product.t) (st : AppState) (op : CartOp) :
  (forall p, op = add p -> In p source) ->
  Forall (well_formed source) (cart st) ->
  Forall (well_formed source) (cart (step st op)).
Proof.
  intros Hsrc Hwf. destruct op as [p | productId | productId n]; cbn.
  - destruct (find _ (cart st)) as [found|].
    + apply Forall_map. revert Hwf. apply Forall_impl.
      intros item (Hq & Hp).
      destruct (CartItem.id item =? Product.id p)%string;
        split; cbn; auto; lia.
    + apply Forall_app. split; [exact Hwf|].
      constructor; [|constructor]. split; cbn; [lia | auto].
  - apply Forall_kept, Hwf.
  - destruct (n <=? 0) eqn:Hn.
    + apply Forall_kept, Hwf.
    + apply Z.leb_gt in Hn. apply Forall_map. revert Hwf. apply Forall_impl.
      intros item (Hq & Hp).
      destruct (CartItem.id item =? productId)%string; split; cbn; auto; lia.
Qed.

Lemma run_well_formed (source : list Product.t) (ops : list CartOp) (st : AppState) :
  (forall p, In (add p) ops -> In p source) ->
  Forall (well_formed source) (cart st) ->
  Forall (well_formed source) (cart (run ops st)).
Proof.
  revert st. induction ops as [|op ops IH]; intros st Hsrc Hwf; [exact Hwf|].
  cbn. apply IH.
  - intros p Hin. apply Hsrc. right. exact Hin.
  - apply step_well_formed; [|exact Hwf].
    intros p ->. apply Hsrc. left. reflexivity.
Qed.

(** X3.  After any sequence of cart operations from the empty cart, every
    item of the cart has a quantity of at least 1 and carries the fields of
    a product that was passed to [addToCart] in that sequence: no operation
    leaves an item with a zero or negative quantity, and none invents or
    alters a product. *)
Theorem cart_items_are_added_products_with_positive_quantity
    (ops : list CartOp) :
  Forall (fun item =>
            1 <= CartItem.quantity item /\
            In (CartItem.product item) (added ops))
         (cart (run ops initialState)).
Proof.
  apply (run_well_formed (added ops) ops initialState); [|constructor].
  intros p Hin. unfold added. apply in_flat_map.
  exists (add p). split; [exact Hin | left; reflexivity].
Qed.

(** X4.  Removing a product's id right after [addToCart] of that product
    gives the same state as removing it without the add; when the id was
    not in the cart, add followed by remove gives back the state. *)
Theorem removeFromCart_undoes_addToCart (p : Product.t) (st : AppState) :
  removeFromCart (Product.id p) (addToCart p st)
    = removeFromCart (Product.id p) st /\
  (~ present (Product.id p) (cart st) ->
     removeFromCart (Product.id p) (addToCart p st) = st).
Proof.
  assert (Hsame : removeFromCart (Product.id p) (addToCart p st)
                  = removeFromCart (Product.id p) st).
  { unfold removeFromCart, addToCart, setCart. cbn. f_equal.
    destruct (find _ (cart st)) as [found|].
    - apply (drop_rewrite_quantity (Product.id p)
               (fun item => CartItem.quantity item + 1)).
    - rewrite filter_app. cbn. unfold CartItem.id at 2. cbn.
      rewrite String.eqb_refl. cbn. apply app_nil_r. }
  split; [exact Hsame|].
  intros Habs. rewrite Hsame. unfold removeFromCart, setCart.
  rewrite (drop_absent _ _ Habs). destruct st; reflexivity.
Qed.

(** X5.  [removeFromCart] of an id that is not in the cart returns the state
    unchanged.  On a cart with distinct ids, removing the id of an item
    lowers the total by that item's price times its quantity and the
    header's item count by its quantity. *)
Theorem removeFromCart_lowers_total (productId : string) (st : AppState) :
  (~ present productId (cart st) -> removeFromCart productId st = st) /\
  (forall item,
     NoDup (map CartItem.id (cart st)) ->
     In item (cart st) ->
     CartItem.id item = productId ->
     totalCents (removeFromCart productId st)
       = totalCents st - CartItem.price item * CartItem.quantity item /\
     cartCount (removeFromCart productId st)
       = cartCount st - CartItem.quantity item).
Proof.
  split.
  - intros Habs. unfold removeFromCart, setCart.
    rewrite (drop_absent _ _ Habs). destruct st; reflexivity.
  - intros item Hnd Hin <-. unfold totalCents, cartCount, removeFromCart, setCart.
    cbn [cart]. rewrite !fold_left_sum.
    rewrite !(sum_drop _ _ item Hnd Hin). lia.
Qed.

(** X6.  On a cart with distinct ids, [addToCart(p)] raises the header's
    item count by exactly 1.  It raises the total by the price recorded in
    the cart for that id when the id is already there (the price of [p]
    itself is not read), and by the price of [p] when the id is new. *)
Theorem addToCart_adds_one_unit (p : Product.t) (st : AppState) :
  NoDup (map CartItem.id (cart st)) ->
  cartCount (addToCart p st) = cartCount st + 1 /\
  (forall item,
     In item (cart st) -> CartItem.id item = Product.id p ->
     totalCents (addToCart p st) = totalCents st + CartItem.price item) /\
  (~ present (Product.id p) (cart st) ->
     totalCents (addToCart p st) = totalCents st + Product.price p).
Proof.
  intros Hnd.
  assert (Hpresent : forall (g : CartItem.t -> Z) item,
             In item (cart st) -> CartItem.id item = Product.id p ->
             sum (map g (cart (addToCart p st)))
             = sum (map g (cart st)) - g item
               + g (CartItem.with_quantity item (CartItem.quantity item + 1))).
  { intros g item Hin Hid. cbn.
    destruct (find_id_present (Product.id p) (cart st)) as (_ & Hfind).
    destruct Hfind as (found & ->); [exists item; auto|].
    rewrite <- Hid.
    apply (sum_rewrite_quantity g (fun item => CartItem.quantity item + 1)
             _ item Hnd Hin). }
  assert (Habsent : forall (g : CartItem.t -> Z),
             ~ present (Product.id p) (cart st) ->
             sum (map g (cart (addToCart p st)))
             = sum (map g (cart st)) + g (CartItem.mk p 1)).
  { intros g Habs. cbn. rewrite (find_id_absent _ _ Habs).
    rewrite map_app, sum_app. cbn. lia. }
  unfold cartCount, totalCents. rewrite !fold_left_sum.
  split; [|split].
  - destruct (find (fun item => (CartItem.id item =? Product.id p)%string)
                (cart st)) as [found|] eqn:Hfind.
    + apply find_some in Hfind as (Hin & Hid). apply String.eqb_eq in Hid.
      rewrite (Hpresent _ found Hin Hid). cbn. lia.
    + rewrite Habsent; [cbn; lia|].
      intros Hpres. apply find_id_present in Hpres as (found & Hsome).
      pose proof (eq_trans (eq_sym Hfind) Hsome) as Habsurd. discriminate.
  - intros item Hin Hid. rewrite (Hpresent _ item Hin Hid).
    unfold CartItem.price, CartItem.with_quantity. cbn. lia.
  - intros Habs. rewrite (Habsent _ Habs).
    unfold CartItem.price. cbn. lia.
Qed.

(** X7.  On a cart with distinct ids, the [+] button of an item whose
    quantity is not negative, [updateCartQuantity(item.id, item.quantity + 1)],
    gives the same state as [addToCart] of that item's product. *)
Theorem plus_button_is_addToCart (item : CartItem.t) (st : AppState) :
  NoDup (map CartItem.id (cart st)) ->
  In item (cart st) ->
  0 <= CartItem.quantity item ->
  updateCartQuantity (CartItem.id item) (CartItem.quantity item + 1) st
    = addToCart (CartItem.product item) st.
Proof.
  intros Hnd Hin Hq.
  unfold updateCartQuantity, addToCart, setCart. f_equal.
  assert (Hpos : (CartItem.quantity item + 1 <=? 0) = false)
    by (apply Z.leb_gt; lia).
  rewrite Hpos.
  destruct (find_id_present (CartItem.id item) (cart st)) as (_ & Hfind).
  destruct Hfind as (found & Hfound); [exists item; auto|].
  change (Product.id (CartItem.product item)) with (CartItem.id item).
  rewrite Hfound. apply map_ext_in. intros other Hother.
  destruct (CartItem.id other =? CartItem.id item)%string eqn:Heq;
    [|reflexivity].
  apply String.eqb_eq in Heq.
  rewrite (same_id_same_item _ other item Hnd Hother Hin Heq). reflexivity.
Qed.

(** X18.  After [updateCartQuantity(id, m)] with [m > 0], a further
    [updateCartQuantity(id, n)] gives the same state as that second call
    alone: the last quantity written wins, and a non-positive [n] removes the
    item as if the first call had not happened.  On a cart with distinct
    ids, setting the quantity of an item to [m > 0] changes the total by the
    item's price times the change of quantity. *)
Theorem updateCartQuantity_last_write_wins
    (productId : string) (m n : Z) (st : AppState) :
  0 < m ->
  updateCartQuantity productId n (updateCartQuantity productId m st)
    = updateCartQuantity productId n st /\
  (forall item,
     NoDup (map CartItem.id (cart st)) ->
     In item (cart st) ->
     CartItem.id item = productId ->
     totalCents (updateCartQuantity productId m st)
       = totalCents st + CartItem.price item * (m - CartItem.quantity item)).
Proof.
  intros Hm. apply Z.leb_gt in Hm. split.
  - unfold updateCartQuantity, setCart. cbn [cart products showCheckout].
    rewrite Hm. f_equal. destruct (n <=? 0).
    + apply (drop_rewrite_quantity productId (fun _ => m)).
    + rewrite map_map. apply map_ext. intros item.
      destruct (CartItem.id item =? productId)%string eqn:Heq.
      * rewrite id_with_quantity, Heq. reflexivity.
      * rewrite Heq. reflexivity.
  - intros item Hnd Hin <-.
    unfold totalCents, updateCartQuantity, setCart. cbn [cart].
    rewrite Hm, !fold_left_sum.
    rewrite (sum_rewrite_quantity _ (fun _ => m) _ item Hnd Hin).
    unfold CartItem.price, CartItem.with_quantity. cbn. lia.
Qed.

End CartArithmetic.

(* ===================================================================== *)
(** * Further properties of the checkout flow *)
(* ===================================================================== *)

Section PayProperties.

Import Client.

Variable REACT_APP_BACKEND_URL : option string.
Variable fetch : string -> list Item.t -> Throws FetchResponse.
Variable stripePromise : Throws bool.

Local Abbreviation pay :=
  (handleStripeCheckoutRedirect REACT_APP_BACKEND_URL fetch stripePromise).

Local Abbreviation checkout_url :=
  (interpolate REACT_APP_BACKEND_URL +++ "/api/create-checkout-session").

(** On every path [handleStripeCheckoutRedirect] posts once, and what it
    posts is the cart, item by item. *)
Lemma pay_posts_cart (st : AppState) :
  posts (snd (pay st)) = [(checkout_url, map toItem (cart st))].
Proof.
  unfold handleStripeCheckoutRedirect, checkoutAttempt.
  destruct (fetch _ _) as [response|e]; [|reflexivity].
  destruct (ok response); cbn.
  - destruct (json response) as [session|e]; [|reflexivity].
    destruct stripePromise as [[|]|e]; reflexivity.
  - destruct (json response) as [errorData|e]; reflexivity.
Qed.

(** X8.  [handleStripeCheckoutRedirect] hands a session to
    [redirectToCheckout] exactly when the request resolved with an ok
    response, its body parsed, and Stripe.js had loaded.  It then does
    nothing but post the cart and redirect with the [id] of that body; it
    never redirects after a failed request, a non-ok response, an unreadable
    body or a missing Stripe object. *)
Theorem pay_redirects_exactly_on_success (st : AppState) :
  (forall response session,
     fetch checkout_url (map toItem (cart st)) = inl response ->
     ok response = true ->
     json response = inl session ->
     stripePromise = inl true ->
     snd (pay st)
     = [fetch_post checkout_url (map toItem (cart st));
        redirectToCheckout (id session)]) /\
  (redirects (snd (pay st)) <> [] ->
     exists response session,
       fetch checkout_url (map toItem (cart st)) = inl response /\
       ok response = true /\
       json response = inl session /\
       stripePromise = inl true).
Proof.
  split.
  - intros response session Hfetch Hok Hjson Hstripe.
    unfold handleStripeCheckoutRedirect, checkoutAttempt.
    rewrite Hfetch, Hok, Hjson, Hstripe. reflexivity.
  - unfold handleStripeCheckoutRedirect, checkoutAttempt.
    destruct (fetch _ _) as [response|e]; [|intros H; contradiction H; reflexivity].
    destruct (ok response) eqn:Hok; cbn.
    + destruct (json response) as [session|e] eqn:Hjson;
        [|intros H; contradiction H; reflexivity].
      destruct stripePromise as [[|]|e];
        try (intros H; contradiction H; reflexivity).
      intros _. exists response, session. auto.
    + destruct (json response) as [errorData|e];
        intros H; contradiction H; reflexivity.
Qed.

(** X9.  When the backend answers with a non-ok status,
    [handleStripeCheckoutRedirect] shows one alert and does not redirect.
    The alert quotes the [error] text of the response body when there is a
    non-empty one, falls back to ["HTTP error! status: <status>"] when the
    body has no [error] or an empty one, and quotes the parser's message
    when the body cannot be read. *)
Theorem pay_alert_quotes_backend_error (st : AppState) (response : FetchResponse) :
  fetch checkout_url (map toItem (cart st)) = inl response ->
  ok response = false ->
  redirects (snd (pay st)) = [] /\
  (forall errorData reason,
     json response = inl errorData ->
     error errorData = Some reason ->
     reason <> "" ->
     alerts (snd (pay st))
     = ["Could not initiate checkout: " +++ reason +++ ". Please try again."]) /\
  (forall errorData,
     json response = inl errorData ->
     error errorData = None \/ error errorData = Some "" ->
     alerts (snd (pay st))
     = ["Could not initiate checkout: "
        +++ ("HTTP error! status: " +++ number_to_string (status response))
        +++ ". Please try again."]) /\
  (forall e,
     json response = inr e ->
     alerts (snd (pay st))
     = ["Could not initiate checkout: " +++ message e +++ ". Please try again."]).
Proof.
  intros Hfetch Hok.
  unfold handleStripeCheckoutRedirect, checkoutAttempt.
  rewrite Hfetch, Hok. cbn [negb].
  split; [destruct (json response); reflexivity|].
  split; [|split].
  - intros errorData reason -> Herror Hne. rewrite Herror. cbn.
    apply String.eqb_neq in Hne. rewrite Hne. reflexivity.
  - intros errorData -> [Herror | Herror]; rewrite Herror; reflexivity.
  - intros e ->. reflexivity.
Qed.

End PayProperties.

(* ===================================================================== *)
(** * Properties of the rendered page *)
(* ===================================================================== *)

Section PageProperties.

Import Client.

Variable REACT_APP_BACKEND_URL : option string.
Variable fetch : string -> list Item.t -> Throws FetchResponse.
Variable stripePromise : Throws bool.

Local Abbreviation onClick :=
  (Client.onClick REACT_APP_BACKEND_URL fetch stripePromise).
Local Abbreviation reachable :=
  (Client.reachable REACT_APP_BACKEND_URL fetch stripePromise).

(** Where each kind of button is rendered. *)
Lemma buttons_inv (st : AppState) (c : Click) :
  In c (buttons st) ->
  match c with
  | click_add p => showCheckout st = false /\ In p (products st)
  | click_proceed => showCheckout st = false /\ cart st <> []
  | click_back => showCheckout st = true
  | click_minus item | click_plus item | click_remove item =>
      showCheckout st = true /\ In item (cart st)
  | click_pay => showCheckout st = true /\ cart st <> []
  end.
Proof.
  unfold buttons. intros Hin.
  destruct (showCheckout st); cbn [negb app] in Hin.
  - destruct Hin as [<- | Hin]; [reflexivity|].
    assert (Hne : cart st <> []).
    { intros Hempty. rewrite Hempty in Hin. contradiction. }
    destruct (length (cart st) =? 0)%nat; [contradiction|].
    apply in_app_or in Hin as [Hin | [<- | []]]; [|auto].
    apply in_flat_map in Hin as (item & Hitem & Hc).
    destruct Hc as [<- | [<- | [<- | []]]]; auto.
  - apply in_app_or in Hin as [Hin | Hin].
    + destruct (cart st) as [|x c']; [contradiction|].
      destruct Hin as [<- | []]. split; [reflexivity | discriminate].
    + destruct (0 <? length (products st))%nat; [|contradiction].
      apply in_map_iff in Hin as (p & <- & Hp). auto.
Qed.

(** The cart operation behind each click, if it has one. *)
Lemma onClick_cart (st : AppState) (c : Click) :
  products (fst (onClick c st)) = products st /\
  (cart (fst (onClick c st)) = cart st \/
   exists op,
     cart (fst (onClick c st)) = cart (step st op) /\
     forall p, op = add p -> c = click_add p).
Proof.
  destruct c as [p| | |item|item|item|]; cbn [Client.onClick].
  - split; [reflexivity|]. right. exists (add p). split; [reflexivity|].
    intros q Hq. injection Hq as ->. reflexivity.
  - unfold handleProceedToCheckout.
    destruct (length (cart st) =? 0)%nat; auto.
  - auto.
  - split; [reflexivity|]. right.
    exists (setQuantity (CartItem.id item) (CartItem.quantity item - 1)).
    split; [reflexivity | discriminate].
  - split; [reflexivity|]. right.
    exists (setQuantity (CartItem.id item) (CartItem.quantity item + 1)).
    split; [reflexivity | discriminate].
  - split; [reflexivity|]. right. exists (remove (CartItem.id item)).
    split; [reflexivity | discriminate].
  - rewrite pay_keeps_state. auto.
Qed.

(** A click on an enabled button keeps the invariant of the page. *)
Lemma click_invariant (catalogue : list Product.t) (st : AppState) (c : Click) :
  In c (buttons st) ->
  products st = catalogue /\
  NoDup (map CartItem.id (cart st)) /\
  Forall (well_formed catalogue) (cart st) ->
  products (fst (onClick c st)) = catalogue /\
  NoDup (map CartItem.id (cart (fst (onClick c st)))) /\
  Forall (well_formed catalogue) (cart (fst (onClick c st))).
Proof.
  intros Hin (Hprod & Hnd & Hwf).
  destruct (onClick_cart st c) as (Hp & [Hsame | (op & Hop & Hadd)]).
  - rewrite Hp, Hsame. auto.
  - rewrite Hp, Hop. split; [exact Hprod|]. split.
    + apply step_NoDup, Hnd.
    + apply step_well_formed; [|exact Hwf].
      intros p Heq. pose proof (Hadd p Heq) as ->.
      apply buttons_inv in Hin as (_ & Hin). rewrite <- Hprod. exact Hin.
Qed.

Lemma reachable_invariant (catalogue : list Product.t) (st : AppState) :
  reachable catalogue st ->
  products st = catalogue /\
  NoDup (map CartItem.id (cart st)) /\
  Forall (well_formed catalogue) (cart st).
Proof.
  induction 1 as [|st c Hreach IH Hin].
  - cbn. repeat split; constructor.
  - apply click_invariant; assumption.
Qed.

(** X10.  In every state a user can reach by clicking enabled buttons, the
    catalogue is the one that was loaded, the ids of the cart are pairwise
    distinct, and every item of the cart has a quantity of at least 1 and
    carries the fields of a catalogue product. *)
Theorem reachable_cart_is_well_formed
    (catalogue : list Product.t) (st : AppState) :
  reachable catalogue st ->
  products st = catalogue /\
  NoDup (map CartItem.id (cart st)) /\
  Forall (fun item =>
            1 <= CartItem.quantity item /\
            In (CartItem.product item) catalogue)
         (cart st).
Proof.
  intros Hreach.
  induction Hreach as [|st c Hreach IH Hin].
  - split; [reflexivity|]. split; constructor.
  - apply (click_invariant catalogue st c Hin). exact IH.
Qed.

(** X11.  A click on any enabled button other than Pay changes the state
    without any alert, log or request.  In particular the empty-cart warning
    of [handleProceedToCheckout] cannot be raised from the page: the Proceed
    button is enabled only on a non-empty cart, and clicking it shows the
    checkout view. *)
Theorem enabled_buttons_raise_no_alert (st : AppState) (c : Click) :
  In c (buttons st) ->
  (c <> click_pay -> snd (onClick c st) = []) /\
  (c = click_proceed -> view (fst (onClick c st)) = Reviewing).
Proof.
  intros Hin. pose proof (buttons_inv st c Hin) as Hinv.
  destruct c as [p| | |item|item|item|]; cbn [Client.onClick];
    (split; [intros Hne | intros Heq]);
    try reflexivity; try discriminate; try contradiction.
  - destruct Hinv as (_ & Hcart). unfold handleProceedToCheckout.
    destruct (cart st); [contradiction | reflexivity].
  - destruct Hinv as (_ & Hcart). unfold handleProceedToCheckout.
    destruct (cart st); [contradiction | reflexivity].
Qed.

(** X12.  Whenever a user reaches a state where the Pay button is shown and
    clicks it, exactly one request is posted, to the checkout route, and its
    [items] are never empty: they have pairwise distinct ids, each has a
    quantity of at least 1, and each carries the id, name and price of a
    catalogue product. *)
Theorem pay_button_posts_catalogue_items
    (catalogue : list Product.t) (st : AppState) :
  reachable catalogue st ->
  In click_pay (buttons st) ->
  exists items,
    posts (snd (onClick click_pay st))
    = [(interpolate REACT_APP_BACKEND_URL +++ "/api/create-checkout-session",
        items)] /\
    items <> [] /\
    NoDup (map Item.id items) /\
    Forall (fun it =>
              1 <= Item.quantity it /\
              exists p,
                In p catalogue /\
                Item.id it = Product.id p /\
                Item.name it = Product.name p /\
                Item.price it = Product.price p)
           items.
Proof.
  intros Hreach Hin.
  apply reachable_invariant in Hreach as (_ & Hnd & Hwf).
  apply buttons_inv in Hin as (_ & Hcart).
  exists (map (toItem) (cart st)). cbn [Client.onClick].
  rewrite pay_posts_cart. split; [reflexivity|]. split; [|split].
  - destruct (cart st); [contradiction | discriminate].
  - rewrite map_map. exact Hnd.
  - apply Forall_map. revert Hwf. apply Forall_impl.
    intros item (Hq & Hp). split; [exact Hq|].
    exists (CartItem.product item). auto.
Qed.

End PageProperties.

(* ===================================================================== *)
(** * Properties of the catalogue request *)
(* ===================================================================== *)

Section CatalogueProperties.

Import Client.

Variable REACT_APP_BACKEND_URL : option string.
Variable fetch : string -> Throws ProductsResponse.t.

Local Abbreviation fetchProducts :=
  (Client.fetchProducts REACT_APP_BACKEND_URL fetch).

(** X13.  [fetchProducts] never touches the cart or the view and never
    alerts.  It replaces the product list only when the request resolved
    with an ok response whose body parsed; on every other path (rejected
    request, non-ok status, unreadable body) the product list stays as it
    was and one line goes to the error console. *)
Theorem fetchProducts_fails_quietly (st : AppState) :
  cart (fst (fetchProducts st)) = cart st /\
  showCheckout (fst (fetchProducts st)) = showCheckout st /\
  alerts (snd (fetchProducts st)) = [] /\
  ((exists response data,
      fetch (interpolate REACT_APP_BACKEND_URL +++ "/api/products") = inl response /\
      ProductsResponse.ok response = true /\
      ProductsResponse.json response = inl data /\
      fetchProducts st = (setProducts data st, []))
   \/
   (exists args,
      fetchProducts st = (st, [console_error args]) /\
      forall response,
        fetch (interpolate REACT_APP_BACKEND_URL +++ "/api/products") = inl response ->
        ProductsResponse.ok response = false \/
        exists e, ProductsResponse.json response = inr e)).
Proof.
  unfold Client.fetchProducts.
  destruct (fetch _) as [response|e] eqn:Hfetch.
  - destruct (ProductsResponse.ok response) eqn:Hok; cbn [negb].
    + destruct (ProductsResponse.json response) as [data|e] eqn:Hjson.
      * repeat split. left. exists response, data. auto.
      * repeat split. right. eexists. split; [reflexivity|].
        intros r Hr. injection Hr as <-. right. exists e. exact Hjson.
    + repeat split. right. eexists. split; [reflexivity|].
      intros r Hr. injection Hr as <-. left. exact Hok.
  - repeat split. right. eexists. split; [reflexivity|]. discriminate.
Qed.

End CatalogueProperties.

(* ===================================================================== *)
(** * The client against the backend *)
(* ===================================================================== *)

Section RoundTrip.

Variable env : Server.Env.
Variable sessions_create :
  Server.SessionCreateParams.t -> Server.Throws Server.Session.t.
Variable backend_url : string.

Local Abbreviation post := (Wire.post env sessions_create backend_url).

Local Abbreviation pay stripePromise :=
  (Client.handleStripeCheckoutRedirect (Some backend_url) post stripePromise).

Local Abbreviation checkout_url :=
  (backend_url +++ "/api/create-checkout-session").

(** What the provider is asked for a given cart. *)
Local Abbreviation request_for st :=
  (Server.sessionParams env
     (map Server.lineItem (map Client.toItem (Client.cart st)))).

(** The response the client receives for a non-empty cart. *)
Lemma post_nonempty (st : Client.AppState) :
  Client.cart st <> [] ->
  post checkout_url (map Client.toItem (Client.cart st))
  = match sessions_create (request_for st) with
    | inl session =>
        inl (Client.mkFetchResponse true 200
               (inl (Client.mkJsonBody None (Some (Server.Session.id session)))))
    | inr err =>
        inl (Client.mkFetchResponse false 500
               (inl (Client.mkJsonBody (Some (Server.message err)) None)))
    end.
Proof.
  intros Hne. unfold Wire.post. rewrite String.eqb_refl.
  rewrite (createCheckoutSession_nonempty env sessions_create);
    [|destruct (Client.cart st); [contradiction | discriminate]].
  cbv zeta. destruct (sessions_create _); reflexivity.
Qed.

(** X14.  With the client pointed at the backend, Stripe.js loaded and a
    non-empty cart: when the provider creates a session for the request
    built from the cart, the client performs one post and redirects to the
    checkout with exactly the session id the provider issued, and shows no
    alert. *)
Theorem pay_redirects_with_provider_session
    (st : Client.AppState) (session : Server.Session.t) :
  Client.cart st <> [] ->
  sessions_create (request_for st) = inl session ->
  snd (pay (inl true) st)
  = [Client.fetch_post checkout_url (map Client.toItem (Client.cart st));
     Client.redirectToCheckout (Some (Server.Session.id session))].
Proof.
  intros Hne Hcreate.
  unfold Client.handleStripeCheckoutRedirect, Client.checkoutAttempt.
  cbn [Client.interpolate].
  rewrite (post_nonempty st Hne), Hcreate. reflexivity.
Qed.

(** X15.  With the client pointed at the backend: when the provider refuses
    the request built from a non-empty cart, the client does not redirect
    and its one alert quotes the provider's message, or
    ["HTTP error! status: 500"] when that message is empty; and a post of an
    empty cart never reaches the provider and is answered by the alert
    quoting ["No items provided"]. *)
Theorem pay_reports_backend_refusal
    (stripePromise : Client.Throws bool) (st : Client.AppState) :
  (forall err,
     Client.cart st <> [] ->
     sessions_create (request_for st) = inr err ->
     Client.redirects (snd (pay stripePromise st)) = [] /\
     Client.alerts (snd (pay stripePromise st))
     = ["Could not initiate checkout: "
        +++ (if (Server.message err =? "")%string
             then "HTTP error! status: 500"
             else Server.message err)
        +++ ". Please try again."]) /\
  (Client.cart st = [] ->
     Server.provider_calls
       (Server.trace
          (Server.createCheckoutSession env sessions_create
             (Server.mkCheckoutRequest
                (Server.items_array (map Client.toItem (Client.cart st))))))
     = [] /\
     Client.redirects (snd (pay stripePromise st)) = [] /\
     Client.alerts (snd (pay stripePromise st))
     = ["Could not initiate checkout: No items provided. Please try again."]).
Proof.
  split.
  - intros err Hne Hcreate.
    unfold Client.handleStripeCheckoutRedirect, Client.checkoutAttempt.
    cbn [Client.interpolate].
    rewrite (post_nonempty st Hne), Hcreate. cbn.
    destruct (Server.message err =? "")%string; split; reflexivity.
  - intros Hempty.
    unfold Client.handleStripeCheckoutRedirect, Client.checkoutAttempt.
    cbn [Client.interpolate]. rewrite Hempty. cbn [map].
    unfold Wire.post. rewrite String.eqb_refl. repeat split.
Qed.

End RoundTrip.

(* ===================================================================== *)
(** * Properties of the embedded payment form *)
(* ===================================================================== *)

Section FormProperties.

Import CheckoutForm.

Variable cartItems : Client.Cart.
Variable stripe : bool.
Variable elements : bool.
Variable REACT_APP_BACKEND_URL : option string.
Variable REACT_APP_FRONTEND_URL : option string.
Variable fetch : string -> Client.Cart -> Client.Throws IntentResponse.
Variable confirmPayment : option string -> string -> Confirmation.

Local Abbreviation handleSubmit :=
  (CheckoutForm.handleSubmit cartItems stripe elements REACT_APP_BACKEND_URL
     REACT_APP_FRONTEND_URL fetch confirmPayment).

Local Abbreviation submitDisabled :=
  (CheckoutForm.submitDisabled stripe elements).

Local Abbreviation final st := (fst (fst (handleSubmit st))).
Local Abbreviation effects st := (snd (fst (handleSubmit st))).
Local Abbreviation completion st := (snd (handleSubmit st)).

(** X16.  While Stripe or its elements have not loaded, [handleSubmit] only
    prevents the default submission: no request, no state change.  Once
    they have, every path on which the handler does not run to its last
    line (the request or its body fails, [confirmPayment] rejects, resolves
    without an error, or navigates away) leaves [isLoading] set, the message
    as it was and the submit button disabled: nothing resets the form. *)
Theorem handleSubmit_leaves_form_locked (st : State) :
  (stripe && elements = false ->
     final st = st /\ effects st = [preventDefault] /\
     completion st = returned) /\
  (stripe && elements = true ->
     completion st <> returned ->
     isLoading (final st) = true /\
     message (final st) = message st /\
     submitDisabled (final st) = true).
Proof.
  unfold CheckoutForm.handleSubmit, CheckoutForm.submitDisabled.
  destruct stripe, elements; cbn [negb orb andb];
    (split; [intros Hready | intros Hready Hstuck]);
    try discriminate; try (repeat split; reflexivity).
  destruct (fetch _ _) as [response|e]; [|repeat split].
  destruct (json response) as [clientSecret|e]; [|repeat split].
  destruct (confirmPayment _ _) as [error| | |];
    [exfalso; apply Hstuck; reflexivity | repeat split ..].
Qed.

(** X17.  With Stripe and its elements loaded, [handleSubmit] runs to its
    last line only when the request and its body succeeded and
    [confirmPayment] resolved with an error.  It has then cleared
    [isLoading] and set the message: the error's own message for the types
    ["card_error"] and ["validation_error"], and
    ["An unexpected error occurred."] for any other type. *)
Theorem handleSubmit_reports_payment_error (st : State) :
  stripe && elements = true ->
  completion st = returned ->
  exists response clientSecret error,
    fetch (Client.interpolate REACT_APP_BACKEND_URL +++ "/api/create-payment-intent")
          cartItems = inl response /\
    json response = inl clientSecret /\
    confirmPayment clientSecret
      (Client.interpolate REACT_APP_FRONTEND_URL +++ "/success")
    = confirm_error error /\
    isLoading (final st) = false /\
    (StripeError.type error = "card_error" \/
     StripeError.type error = "validation_error" ->
       message (final st) = StripeError.message error) /\
    (StripeError.type error <> "card_error" ->
     StripeError.type error <> "validation_error" ->
       message (final st) = Some "An unexpected error occurred.").
Proof.
  unfold CheckoutForm.handleSubmit.
  destruct stripe, elements; cbn [negb orb andb]; try discriminate.
  intros _.
  destruct (fetch _ _) as [response|e] eqn:Hfetch; [|discriminate].
  destruct (json response) as [clientSecret|e] eqn:Hjson; [|discriminate].
  destruct (confirmPayment _ _) as [error| | |] eqn:Hconfirm; try discriminate.
  intros _. exists response, clientSecret, error.
  do 4 (split; [first [reflexivity | assumption]|]). cbn [fst snd]. split.
  - intros [Hty | Hty]; cbn; rewrite Hty; reflexivity.
  - intros H1 H2. apply String.eqb_neq in H1. apply String.eqb_neq in H2.
    cbn. rewrite H1, H2. reflexivity.
Qed.

End FormProperties.

(* ===================================================================== *)
(** * The further properties at the sample inputs *)
(* ===================================================================== *)

(** A signed event of a recognised type without [data] is left unanswered. *)
Lemma handlers_respond_once_unless_object_missing_witness :
  ~ Server.carries_object Samples.event_without_data /\
  Server.responses
    (Server.trace
       (Server.handleWebhook Samples.env
          (Samples.constructEvent_decoding Samples.event_without_data)
          (Samples.signed "checkout.session.completed")))
  = [].
Proof.
  assert (Hnot : ~ Server.carries_object Samples.event_without_data).
  { intros (data & session & id & Hdata & Hobject & _).
    injection Hdata as <-. discriminate Hobject. }
  split; [exact Hnot|].
  destruct (handlers_respond_once_unless_object_missing
              Samples.env
              (Samples.constructEvent_decoding Samples.event_without_data)
              Samples.sessions_create_ok
              (Samples.signed "checkout.session.completed")
              Fixtures.checkout_request) as (_ & Hnone & _).
  apply Hnone.
  exists Samples.event_without_data, "checkout.session.completed".
  split; [reflexivity|]. split; [reflexivity|]. split; [left; reflexivity|].
  exact Hnot.
Defined.

(** The sample request against the accepting provider is answered 200; a
    body whose [items] is [[null]] never reaches the provider. *)
Lemma createSession_status_follows_provider_witness :
  In (Server.mkResponse 200 (Server.json_id "cs_test_a1B2c3"))
     (Server.responses
        (Server.trace
           (Server.createCheckoutSession Samples.env Samples.sessions_create_ok
              Fixtures.checkout_request))) /\
  (200 = 400 <-> Server.no_items (Server.items Fixtures.checkout_request) = true) /\
  (200 = 200 <->
     exists params session,
       Server.provider_calls
         (Server.trace
            (Server.createCheckoutSession Samples.env Samples.sessions_create_ok
               Fixtures.checkout_request))
       = [params] /\
       Samples.sessions_create_ok params = inl session) /\
  Server.provider_calls
    (Server.trace
       (Server.createCheckoutSession Samples.env Samples.sessions_create_ok
          Fixtures.malformed_request))
  = [].
Proof.
  assert (Hin : In (Server.mkResponse 200 (Server.json_id "cs_test_a1B2c3"))
                   (Server.responses
                      (Server.trace
                         (Server.createCheckoutSession Samples.env
                            Samples.sessions_create_ok
                            Fixtures.checkout_request))))
    by (left; reflexivity).
  split; [exact Hin|].
  destruct (createSession_status_follows_provider
              Samples.env Samples.sessions_create_ok Fixtures.checkout_request)
    as (_ & _ & _ & Hstatus).
  destruct (Hstatus _ Hin) as (H400 & H200 & _).
  split; [exact H400|]. split; [exact H200|].
  destruct (createSession_status_follows_provider
              Samples.env Samples.sessions_create_ok Fixtures.malformed_request)
    as (Hcalls & _).
  apply Hcalls. right. eexists. reflexivity.
Defined.

(** Adding the mug to a cart of coffee and removing it again. *)
Lemma removeFromCart_undoes_addToCart_witness :
  ~ Client.present (Product.id Samples.mug) (Client.cart Samples.browsing_coffee) /\
  Client.removeFromCart (Product.id Samples.mug)
    (Client.addToCart Samples.mug Samples.browsing_coffee)
  = Samples.browsing_coffee.
Proof.
  assert (Habs : ~ Client.present (Product.id Samples.mug)
                     (Client.cart Samples.browsing_coffee)).
  { intros (item & [<- | []] & Hid). discriminate Hid. }
  split; [exact Habs|].
  apply (removeFromCart_undoes_addToCart Samples.mug Samples.browsing_coffee).
  exact Habs.
Defined.

Lemma coffee_and_mug_distinct :
  NoDup (map Client.CartItem.id (Client.cart Fixtures.coffee_and_mug)).
Proof.
  cbn. constructor; [intros [H | []]; discriminate H|].
  constructor; [intros []|constructor].
Qed.

(** Removing two bags of coffee at 1500 lowers the total by 3000 and the
    count by 2. *)
Lemma removeFromCart_lowers_total_witness :
  Client.totalCents (Client.removeFromCart "product_1" Fixtures.coffee_and_mug)
  = Client.totalCents Fixtures.coffee_and_mug - 1500 * 2 /\
  Client.cartCount (Client.removeFromCart "product_1" Fixtures.coffee_and_mug)
  = Client.cartCount Fixtures.coffee_and_mug - 2.
Proof.
  destruct (removeFromCart_lowers_total "product_1" Fixtures.coffee_and_mug)
    as (_ & Hlower).
  apply (Hlower (Client.CartItem.mk Samples.coffee 2)).
  - exact coffee_and_mug_distinct.
  - left; reflexivity.
  - reflexivity.
Defined.

(** One more bag of coffee: one more unit, 1500 more. *)
Lemma addToCart_adds_one_unit_witness :
  NoDup (map Client.CartItem.id (Client.cart Fixtures.coffee_and_mug)) /\
  Client.cartCount (Client.addToCart Samples.coffee Fixtures.coffee_and_mug)
  = Client.cartCount Fixtures.coffee_and_mug + 1 /\
  Client.totalCents (Client.addToCart Samples.coffee Fixtures.coffee_and_mug)
  = Client.totalCents Fixtures.coffee_and_mug + 1500.
Proof.
  split; [exact coffee_and_mug_distinct|].
  destruct (addToCart_adds_one_unit Samples.coffee Fixtures.coffee_and_mug
              coffee_and_mug_distinct) as (Hcount & Htotal & _).
  split; [exact Hcount|].
  apply (Htotal (Client.CartItem.mk Samples.coffee 2));
    [left; reflexivity | reflexivity].
Defined.

(** The [+] button on the coffee line. *)
Lemma plus_button_is_addToCart_witness :
  0 <= 2 /\
  Client.updateCartQuantity "product_1" (2 + 1) Fixtures.coffee_and_mug
  = Client.addToCart Samples.coffee Fixtures.coffee_and_mug.
Proof.
  split; [lia|].
  apply (plus_button_is_addToCart (Client.CartItem.mk Samples.coffee 2)
           Fixtures.coffee_and_mug).
  - exact coffee_and_mug_distinct.
  - left; reflexivity.
  - cbn. lia.
Defined.

(** Paying against a backend that accepts. *)
Lemma pay_redirects_exactly_on_success_witness :
  snd (Client.handleStripeCheckoutRedirect (Some Fixtures.backend)
         Fixtures.fetch_accepted (inl true) Samples.reviewing_coffee)
  = [Client.fetch_post "http://localhost:5000/api/create-checkout-session"
       Samples.coffee_twice;
     Client.redirectToCheckout (Some "cs_test_a1B2c3")].
Proof.
  apply (pay_redirects_exactly_on_success (Some Fixtures.backend)
           Fixtures.fetch_accepted (inl true) Samples.reviewing_coffee)
    with (response := Fixtures.accepted)
         (session := Client.mkJsonBody None (Some "cs_test_a1B2c3"));
    reflexivity.
Defined.

(** Paying against a backend that answers 500 with an error text. *)
Lemma pay_alert_quotes_backend_error_witness :
  Client.redirects
    (snd (Client.handleStripeCheckoutRedirect (Some Fixtures.backend)
            Fixtures.fetch_refused (inl true) Samples.reviewing_coffee))
  = [] /\
  Client.alerts
    (snd (Client.handleStripeCheckoutRedirect (Some Fixtures.backend)
            Fixtures.fetch_refused (inl true) Samples.reviewing_coffee))
  = ["Could not initiate checkout: Your card was declined.. Please try again."].
Proof.
  destruct (pay_alert_quotes_backend_error (Some Fixtures.backend)
              Fixtures.fetch_refused (inl true) Samples.reviewing_coffee
              Fixtures.refused eq_refl eq_refl)
    as (Hnone & Hquote & _).
  split; [exact Hnone|].
  apply (Hquote (Client.mkJsonBody (Some "Your card was declined.") None)
           "Your card was declined.");
    [reflexivity | reflexivity | discriminate].
Defined.

(** Two clicks on Add to Cart and one on Proceed lead to the checkout view
    with two bags of coffee. *)
Lemma reviewing_coffee_reachable :
  Client.reachable (Some Fixtures.backend) Samples.fetch_offline (inl true)
    Fixtures.catalogue Samples.reviewing_coffee.
Proof.
  apply (Client.reachable_click _ _ _ _ Samples.browsing_coffee
           Client.click_proceed); [|left; reflexivity].
  apply (Client.reachable_click _ _ _ _
           (Client.mkAppState Fixtures.catalogue
              [Client.CartItem.mk Samples.coffee 1] false)
           (Client.click_add Samples.coffee));
    [|right; left; reflexivity].
  apply (Client.reachable_click _ _ _ _
           (Client.mkAppState Fixtures.catalogue [] false)
           (Client.click_add Samples.coffee));
    [|left; reflexivity].
  apply Client.reachable_start.
Qed.

Lemma reachable_cart_is_well_formed_witness :
  Client.reachable (Some Fixtures.backend) Samples.fetch_offline (inl true)
    Fixtures.catalogue Samples.reviewing_coffee /\
  NoDup (map Client.CartItem.id (Client.cart Samples.reviewing_coffee)) /\
  Forall (Client.well_formed Fixtures.catalogue)
         (Client.cart Samples.reviewing_coffee).
Proof.
  split; [exact reviewing_coffee_reachable|].
  apply (reachable_cart_is_well_formed (Some Fixtures.backend)
           Samples.fetch_offline (inl true) Fixtures.catalogue
           Samples.reviewing_coffee reviewing_coffee_reachable).
Defined.

(** The Proceed button on a cart of coffee. *)
Lemma enabled_buttons_raise_no_alert_witness :
  In Client.click_proceed (Client.buttons Samples.browsing_coffee) /\
  snd (Client.onClick (Some Fixtures.backend) Samples.fetch_offline (inl true)
         Client.click_proceed Samples.browsing_coffee)
  = [] /\
  Client.view
    (fst (Client.onClick (Some Fixtures.backend) Samples.fetch_offline (inl true)
            Client.click_proceed Samples.browsing_coffee))
  = Client.Reviewing.
Proof.
  assert (Hin : In Client.click_proceed (Client.buttons Samples.browsing_coffee))
    by (left; reflexivity).
  split; [exact Hin|].
  destruct (enabled_buttons_raise_no_alert (Some Fixtures.backend)
              Samples.fetch_offline (inl true) Samples.browsing_coffee
              Client.click_proceed Hin) as (Hquiet & Hview).
  split; [apply Hquiet; discriminate | apply Hview; reflexivity].
Defined.

(** The Pay button on the reachable cart of coffee. *)
Lemma pay_button_posts_catalogue_items_witness :
  In Client.click_pay (Client.buttons Samples.reviewing_coffee) /\
  exists items,
    Client.posts
      (snd (Client.onClick (Some Fixtures.backend) Samples.fetch_offline
              (inl true) Client.click_pay Samples.reviewing_coffee))
    = [("http://localhost:5000/api/create-checkout-session", items)] /\
    items <> [].
Proof.
  assert (Hin : In Client.click_pay (Client.buttons Samples.reviewing_coffee))
    by (cbn; tauto).
  split; [exact Hin|].
  destruct (pay_button_posts_catalogue_items (Some Fixtures.backend)
              Samples.fetch_offline (inl true) Fixtures.catalogue
              Samples.reviewing_coffee reviewing_coffee_reachable Hin)
    as (items & Hposts & Hne & _).
  exists items. split; [exact Hposts | exact Hne].
Defined.

(** The catalogue request while the backend is down. *)
Lemma fetchProducts_fails_quietly_witness :
  Client.alerts
    (snd (Client.fetchProducts (Some Fixtures.backend)
            Fixtures.fetch_products_offline Client.initialState))
  = [] /\
  Client.cart
    (fst (Client.fetchProducts (Some Fixtures.backend)
            Fixtures.fetch_products_offline Client.initialState))
  = [].
Proof.
  destruct (fetchProducts_fails_quietly (Some Fixtures.backend)
              Fixtures.fetch_products_offline Client.initialState)
    as (Hcart & _ & Halerts & _).
  split; [exact Halerts | exact Hcart].
Defined.

(** The cart of coffee paid through the backend with an accepting
    provider. *)
Lemma pay_redirects_with_provider_session_witness :
  Client.cart Samples.reviewing_coffee <> [] /\
  snd (Client.handleStripeCheckoutRedirect (Some Fixtures.backend)
         (Wire.post Samples.env Samples.sessions_create_ok Fixtures.backend)
         (inl true) Samples.reviewing_coffee)
  = [Client.fetch_post "http://localhost:5000/api/create-checkout-session"
       Samples.coffee_twice;
     Client.redirectToCheckout (Some "cs_test_a1B2c3")].
Proof.
  assert (Hne : Client.cart Samples.reviewing_coffee <> []) by discriminate.
  split; [exact Hne|].
  apply (pay_redirects_with_provider_session Samples.env
           Samples.sessions_create_ok Fixtures.backend Samples.reviewing_coffee
           (Server.Session.mk "cs_test_a1B2c3") Hne eq_refl).
Defined.

(** The same cart with a refusing provider, and an empty cart. *)
Lemma pay_reports_backend_refusal_witness :
  Client.alerts
    (snd (Client.handleStripeCheckoutRedirect (Some Fixtures.backend)
            (Wire.post Samples.env Samples.sessions_create_fails Fixtures.backend)
            (inl true) Samples.reviewing_coffee))
  = ["Could not initiate checkout: Invalid API Key provided: sk_test_xx. Please try again."] /\
  Client.alerts
    (snd (Client.handleStripeCheckoutRedirect (Some Fixtures.backend)
            (Wire.post Samples.env Samples.sessions_create_fails Fixtures.backend)
            (inl true) Samples.browsing_empty))
  = ["Could not initiate checkout: No items provided. Please try again."].
Proof.
  split.
  - destruct (pay_reports_backend_refusal Samples.env
                Samples.sessions_create_fails Fixtures.backend (inl true)
                Samples.reviewing_coffee) as (Hrefused & _).
    destruct (Hrefused (Server.mkError "Invalid API Key provided: sk_test_xx"))
      as (_ & Halert); [discriminate | reflexivity | exact Halert].
  - destruct (pay_reports_backend_refusal Samples.env
                Samples.sessions_create_fails Fixtures.backend (inl true)
                Samples.browsing_empty) as (_ & Hempty).
    destruct Hempty as (_ & _ & Halert); [reflexivity | exact Halert].
Defined.

(** Submitting the form when the payment-intent request is answered by a
    page that is not JSON: the form stays locked. *)
Lemma handleSubmit_leaves_form_locked_witness :
  CheckoutForm.isLoading
    (fst (fst (CheckoutForm.handleSubmit [] true true (Some Fixtures.backend)
                 (Some "http://localhost:3000") Fixtures.fetch_intent_not_found
                 Fixtures.confirm_declined CheckoutForm.initialState)))
  = true /\
  CheckoutForm.submitDisabled true true
    (fst (fst (CheckoutForm.handleSubmit [] true true (Some Fixtures.backend)
                 (Some "http://localhost:3000") Fixtures.fetch_intent_not_found
                 Fixtures.confirm_declined CheckoutForm.initialState)))
  = true.
Proof.
  destruct (handleSubmit_leaves_form_locked [] true true (Some Fixtures.backend)
              (Some "http://localhost:3000") Fixtures.fetch_intent_not_found
              Fixtures.confirm_declined CheckoutForm.initialState)
    as (_ & Hlocked).
  destruct Hlocked as (Hloading & _ & Hdisabled);
    [reflexivity | discriminate | ].
  split; [exact Hloading | exact Hdisabled].
Defined.

(** Submitting the form when the card is declined. *)
Lemma handleSubmit_reports_payment_error_witness :
  CheckoutForm.isLoading
    (fst (fst (CheckoutForm.handleSubmit [] true true (Some Fixtures.backend)
                 (Some "http://localhost:3000") Fixtures.fetch_intent_ok
                 Fixtures.confirm_declined CheckoutForm.initialState)))
  = false /\
  CheckoutForm.message
    (fst (fst (CheckoutForm.handleSubmit [] true true (Some Fixtures.backend)
                 (Some "http://localhost:3000") Fixtures.fetch_intent_ok
                 Fixtures.confirm_declined CheckoutForm.initialState)))
  = Some "Your card was declined.".
Proof.
  destruct (handleSubmit_reports_payment_error [] true true
              (Some Fixtures.backend) (Some "http://localhost:3000")
              Fixtures.fetch_intent_ok Fixtures.confirm_declined
              CheckoutForm.initialState eq_refl eq_refl)
    as (response & clientSecret & error & _ & _ & Hconfirm & Hloading & Hmsg & _).
  split; [exact Hloading|].
  injection Hconfirm as <-. apply Hmsg. left. reflexivity.
Defined.

(** Three bags of coffee, then five; and five bags instead of two. *)
Lemma updateCartQuantity_last_write_wins_witness :
  0 < 3 /\
  Client.updateCartQuantity "product_1" 5
    (Client.updateCartQuantity "product_1" 3 Fixtures.coffee_and_mug)
  = Client.updateCartQuantity "product_1" 5 Fixtures.coffee_and_mug /\
  Client.totalCents (Client.updateCartQuantity "product_1" 3 Fixtures.coffee_and_mug)
  = Client.totalCents Fixtures.coffee_and_mug + 1500 * (3 - 2).
Proof.
  assert (Hpos : 0 < 3) by lia.
  split; [exact Hpos|].
  destruct (updateCartQuantity_last_write_wins "product_1" 3 5
              Fixtures.coffee_and_mug Hpos) as (Hwins & Htotal).
  split; [exact Hwins|].
  apply (Htotal (Client.CartItem.mk Samples.coffee 2));
    [exact coffee_and_mug_distinct | left; reflexivity | reflexivity].
Defined.
